(** * fresh-news-robot: a shallow embedding of [tasks.py]

    The development follows the layout of the Python module:
    - [PyStr]   : the string primitives the module relies on
                  ([str.count], [int(str)], f-string rendering of numbers);
    - [Re]      : the fragment of [re] needed by [has_money];
    - [NewInformation], [NewsParameters] : the two data classes;
    - [Dt]      : [datetime], [relativedelta] and the cutoff date;
    - [Robot]   : the browser session as an explicit world, the
                  state-and-exception monad the scraping code runs in, and
                  [LATimesLogic.get_news];
    followed by the properties proved about them.

    Python [str] values are modelled as [string] (one [ascii] per
    character, so the model covers texts whose characters are ASCII). *)

From Stdlib Require Import ZArith Lia String Ascii List Bool.
From Stdlib Require Import DecimalString DecimalNat.
From stdpp Require Import base gmap strings list.
Import ListNotations.

Set Warnings "-register-all".
Local Open Scope string_scope.

(* ================================================================== *)
(** * Python string primitives *)
(* ================================================================== *)

Module PyStr.

(** The characters of a [str], in order. *)
Definition chars (s : string) : list ascii := list_ascii_of_string s.

(** [s.startswith(sub)] on character lists. *)
Fixpoint starts_with (sub s : list ascii) : bool :=
  match sub, s with
  | [], _ => true
  | _ :: _, [] => false
  | a :: sub', b :: s' => Ascii.eqb a b && starts_with sub' s'
  end.

(** The scan behind [str.count] for a non-empty needle: walk the text
    from the left; when the needle starts at the current position, count
    it and jump over it (so that occurrences never overlap).  [skip] is
    the number of characters still to jump over. *)
Fixpoint count_scan (sub : list ascii) (skip : nat) (s : list ascii) : nat :=
  match s with
  | [] => 0
  | _ :: s' =>
      match skip with
      | S k => count_scan sub k s'
      | O =>
          if starts_with sub s
          then S (count_scan sub (length sub - 1) s')
          else count_scan sub 0 s'
      end
  end.

(** [s.count(sub)].  CPython answers [len(s) + 1] for the empty needle
    before any scanning takes place. *)
Definition count (s sub : string) : Z :=
  match sub with
  | EmptyString => Z.of_nat (String.length s) + 1
  | String _ _ => Z.of_nat (count_scan (chars sub) 0 (chars s))
  end.

(** The white space that [int] skips on both sides of an ASCII literal:
    the blank and the characters from tab to carriage return. *)
Definition is_space (c : ascii) : bool :=
  let n := nat_of_ascii c in
  (n =? 32)%nat || ((9 <=? n)%nat && (n <=? 13)%nat).

Definition is_digit (c : ascii) : bool :=
  let n := nat_of_ascii c in (48 <=? n)%nat && (n <=? 57)%nat.

Definition digit_value (c : ascii) : Z := Z.of_nat (nat_of_ascii c) - 48.

Fixpoint lstrip (s : list ascii) : list ascii :=
  match s with
  | c :: s' => if is_space c then lstrip s' else s
  | [] => []
  end.

Definition strip (s : list ascii) : list ascii :=
  rev (lstrip (rev (lstrip s))).

(** Digits of a decimal literal: one or more digits, where single
    underscores may separate digits ([int("1_000") == 1000]).
    [prev_digit] tells whether the previous character was a digit, which
    is what allows an underscore or the end of the literal here. *)
Fixpoint int_digits (acc : Z) (prev_digit : bool) (s : list ascii) : option Z :=
  match s with
  | [] => if prev_digit then Some acc else None
  | c :: s' =>
      if is_digit c then int_digits (10 * acc + digit_value c) true s'
      else if Ascii.eqb c "_" && prev_digit then int_digits acc false s'
      else None
  end.

(** [int(s)] for a [str] argument in base ten; [None] stands for the
    [ValueError] raised on a malformed literal.  (The cap that recent
    CPython versions put on the number of digits is not modelled.) *)
Definition int_of_chars (s : list ascii) : option Z :=
  match strip s with
  | "-"%char :: ds => Z.opp <$> int_digits 0 false ds
  | "+"%char :: ds => int_digits 0 false ds
  | ds => int_digits 0 false ds
  end.

Definition int (s : string) : option Z := int_of_chars (chars s).

(** [str(n)] for a non-negative integer, as used inside f-strings. *)
Definition of_nat (n : nat) : string :=
  NilEmpty.string_of_uint (Nat.to_uint n).

End PyStr.

(* ================================================================== *)
(** * Regular expressions *)
(* ================================================================== *)

(** The constructs of [re] that occur in the money pattern.  Only the
    question whether [re.search] finds a match is needed, so expressions
    are interpreted as languages and the matcher works with derivatives. *)
Module Re.

Inductive regex : Type :=
| Void                      (* matches nothing *)
| Eps                       (* the empty string *)
| Lit (c : ascii)           (* one given character *)
| Digit                     (* \d *)
| Cat (r1 r2 : regex)       (* r1 r2 *)
| Alt (r1 r2 : regex)       (* r1|r2 *)
| Star (r : regex).         (* r* *)

(** [r?] *)
Definition Opt (r : regex) : regex := Alt r Eps.

(** A literal word. *)
Fixpoint Word (w : list ascii) : regex :=
  match w with
  | [] => Eps
  | c :: w' => Cat (Lit c) (Word w')
  end.

(** [r{n}] *)
Fixpoint Times (n : nat) (r : regex) : regex :=
  match n with
  | O => Eps
  | S k => Cat r (Times k r)
  end.

(** [r{0,n}] *)
Fixpoint Upto (n : nat) (r : regex) : regex :=
  match n with
  | O => Eps
  | S k => Opt (Cat r (Upto k r))
  end.

(** [r{lo,hi}] *)
Definition Rep (lo hi : nat) (r : regex) : regex :=
  Cat (Times lo r) (Upto (hi - lo) r).

(** The language of an expression. *)
Inductive Matches : regex -> list ascii -> Prop :=
| MEps : Matches Eps []
| MLit c : Matches (Lit c) [c]
| MDigit c : PyStr.is_digit c = true -> Matches Digit [c]
| MCat r1 r2 s1 s2 :
    Matches r1 s1 -> Matches r2 s2 -> Matches (Cat r1 r2) (s1 ++ s2)
| MAltL r1 r2 s : Matches r1 s -> Matches (Alt r1 r2) s
| MAltR r1 r2 s : Matches r2 s -> Matches (Alt r1 r2) s
| MStarNil r : Matches (Star r) []
| MStarCons r s1 s2 :
    Matches r s1 -> Matches (Star r) s2 -> Matches (Star r) (s1 ++ s2).

Fixpoint nullable (r : regex) : bool :=
  match r with
  | Void | Lit _ | Digit => false
  | Eps | Star _ => true
  | Cat r1 r2 => nullable r1 && nullable r2
  | Alt r1 r2 => nullable r1 || nullable r2
  end.

(** What remains to be matched after reading [c]. *)
Fixpoint deriv (c : ascii) (r : regex) : regex :=
  match r with
  | Void | Eps => Void
  | Lit d => if Ascii.eqb c d then Eps else Void
  | Digit => if PyStr.is_digit c then Eps else Void
  | Cat r1 r2 =>
      if nullable r1
      then Alt (Cat (deriv c r1) r2) (deriv c r2)
      else Cat (deriv c r1) r2
  | Alt r1 r2 => Alt (deriv c r1) (deriv c r2)
  | Star r1 => Cat (deriv c r1) (Star r1)
  end.

(** [re.match(r, s) is not None]: some prefix of [s] matches. *)
Fixpoint match_prefix (r : regex) (s : list ascii) : bool :=
  nullable r ||
  match s with
  | [] => false
  | c :: s' => match_prefix (deriv c r) s'
  end.

(** [re.search(r, s) is not None]: a match starts at some position. *)
Fixpoint search_chars (r : regex) (s : list ascii) : bool :=
  match_prefix r s ||
  match s with
  | [] => false
  | _ :: s' => search_chars r s'
  end.

Definition search (r : regex) (s : string) : bool :=
  search_chars r (PyStr.chars s).

(** The pattern of [has_money], written here with blanks between its
    parts (the only blank of the pattern itself is shown as [_]):
    [\$?  ( \d{1,3}  ,?  \d{1,3}  \.?  \d* )  \d*  _?  (dollars|USD)?] *)
Definition money_group : regex :=
  Cat (Rep 1 3 Digit)
    (Cat (Opt (Lit ","))
      (Cat (Rep 1 3 Digit)
        (Cat (Opt (Lit ".")) (Star Digit)))).

Definition money : regex :=
  Cat (Opt (Lit "$"))
    (Cat money_group
      (Cat (Star Digit)
        (Cat (Opt (Lit " "))
          (Opt (Alt (Word (PyStr.chars "dollars"))
                    (Word (PyStr.chars "USD"))))))).

End Re.

(* ================================================================== *)
(** * Exceptions and results *)
(* ================================================================== *)

(** The Python exceptions that the modelled code can meet. *)
Inductive exn : Type :=
| ValueError
| TypeError
| AttributeError
| OverflowError
| ElementNotFound
| ElementClickInterceptedException
| OSError.

#[global] Instance exn_eq_dec : EqDecision exn.
Proof. solve_decision. Defined.

(** The result of a pure computation that may raise. *)
Inductive result (A : Type) : Type :=
| Ok (a : A)
| Raise (e : exn).
Arguments Ok {A} a.
Arguments Raise {A} e.

Definition result_bind {A B} (r : result A) (k : A -> result B) : result B :=
  match r with
  | Ok a => k a
  | Raise e => Raise e
  end.

#[global] Instance result_ret : MRet result := @Ok.
#[global] Instance result_mbind : MBind result := fun A B k r => result_bind r k.

(* ================================================================== *)
(** * datetime, relativedelta and the cutoff date *)
(* ================================================================== *)

Module Dt.
Local Open Scope Z_scope.

(** A naive [datetime.datetime]. *)
Record datetime : Type := mk {
  year : Z; month : Z; day : Z;
  hour : Z; minute : Z; second : Z; microsecond : Z
}.

Definition isleap (y : Z) : bool :=
  (y mod 4 =? 0) && (negb (y mod 100 =? 0) || (y mod 400 =? 0)).

(** [calendar.monthrange(y, m)[1]], for [1 <= m <= 12]. *)
Definition days_in_month (y m : Z) : Z :=
  if m =? 2 then (if isleap y then 29 else 28)
  else if (m =? 4) || (m =? 6) || (m =? 9) || (m =? 11) then 30
  else 31.

(** The values a [datetime] object can hold. *)
Definition valid (d : datetime) : Prop :=
  1 <= year d <= 9999 /\ 1 <= month d <= 12 /\
  1 <= day d <= days_in_month (year d) (month d) /\
  0 <= hour d < 24 /\ 0 <= minute d < 60 /\ 0 <= second d < 60 /\
  0 <= microsecond d < 1000000.

(** Comparison of naive datetimes is lexicographic on the fields. *)
Definition fields (d : datetime) : list Z :=
  [year d; month d; day d; hour d; minute d; second d; microsecond d].

Fixpoint lex_ltb (a b : list Z) : bool :=
  match a, b with
  | x :: a', y :: b' => (x <? y) || ((x =? y) && lex_ltb a' b')
  | _, _ => false
  end.

(** [a < b] *)
Definition ltb (a b : datetime) : bool := lex_ltb (fields a) (fields b).

(** The values of a C [int]. *)
Definition c_int (x : Z) : bool := (-2147483648 <=? x) && (x <=? 2147483647).

(** [d.replace(year=y, month=m, day=dd)]: the arguments are taken as C
    integers, which raises [OverflowError] for a number that does not
    fit; after that, out-of-range fields raise [ValueError]. *)
Definition replace_ymd (d : datetime) (y m dd : Z) : result datetime :=
  if negb (c_int y && c_int m && c_int dd) then Raise OverflowError
  else if (1 <=? y) && (y <=? 9999) && (1 <=? m) && (m <=? 12)
     && (1 <=? dd) && (dd <=? days_in_month y m)
  then Ok (mk y m dd (hour d) (minute d) (second d) (microsecond d))
  else Raise ValueError.

(** [d.replace(day=dd)] *)
Definition replace_day (d : datetime) (dd : Z) : result datetime :=
  replace_ymd d (year d) (month d) dd.

(** The part of [dateutil.relativedelta] that [relativedelta(months=k)]
    exercises: relative years and months; every other field keeps its
    neutral value. *)
Record relativedelta : Type := { years : Z; months : Z }.

Definition sign (x : Z) : Z := if x <? 0 then -1 else 1.

(** [relativedelta._fix]: months beyond 11 carry over into years. *)
Definition fix_ (rd : relativedelta) : relativedelta :=
  if 11 <? Z.abs (months rd) then
    let s := sign (months rd) in
    {| years := years rd + (months rd * s / 12) * s;
       months := (months rd * s mod 12) * s |}
  else rd.

(** [relativedelta(months=k)] *)
Definition relativedelta_months (k : Z) : relativedelta :=
  fix_ {| years := 0; months := k |}.

(** [-rd] *)
Definition neg (rd : relativedelta) : relativedelta :=
  fix_ {| years := - years rd; months := - months rd |}.

(** [other + rd]: shift year and month, then clamp the day to the
    length of the month reached. *)
Definition add (other : datetime) (rd : relativedelta) : result datetime :=
  let y := year other + years rd in
  let m := month other in
  let '(y, m) :=
    if months rd =? 0 then (y, m)
    else
      let m := m + months rd in
      if 12 <? m then (y + 1, m - 12)
      else if m <? 1 then (y - 1, m + 12)
      else (y, m) in
  let dd := Z.min (days_in_month y m) (day other) in
  replace_ymd other y m dd.

(** [other - rd] *)
Definition sub (other : datetime) (rd : relativedelta) : result datetime :=
  add other (neg rd).

(** The cutoff of [get_news]:
    [(now - relativedelta(months=months - 1 if months else 0)).replace(day=1)] *)
Definition max_date_to_search (now : datetime) (months : Z) : result datetime :=
  d ← sub now (relativedelta_months (if months =? 0 then 0 else months - 1)) ;
  replace_day d 1.

(** Proleptic Gregorian date of a day number counted from 1970-01-01. *)
Definition civil_from_days (days : Z) : Z * Z * Z :=
  let z := days + 719468 in
  let era := z / 146097 in
  let doe := z - era * 146097 in
  let yoe := (doe - doe / 1460 + doe / 36524 - doe / 146096) / 365 in
  let doy := doe - (365 * yoe + yoe / 4 - yoe / 100) in
  let mp := (5 * doy + 2) / 153 in
  let d := doy - (153 * mp + 2) / 5 + 1 in
  let m := if mp <? 10 then mp + 3 else mp - 9 in
  let y := yoe + era * 400 + (if m <=? 2 then 1 else 0) in
  (y, m, d).

(** [datetime.fromtimestamp(ms / 1000.0)] on a machine whose local zone
    is UTC, for the sessions of the examples: the calendar arithmetic on
    whole milliseconds, which is what the library returns for timestamps
    of this century; years outside 1..9999 raise [ValueError].  Far from
    there the division loses microseconds in the float, and the C
    library rejects very large numbers with [OverflowError] or
    [OSError]; a session may carry another conversion. *)
Definition utc_fromtimestamp_ms (ms : Z) : result datetime :=
  let secs := ms / 1000 in
  let '(y, m, d) := civil_from_days (secs / 86400) in
  let sod := secs mod 86400 in
  if (1 <=? y) && (y <=? 9999)
  then Ok (mk y m d (sod / 3600) (sod mod 3600 / 60) (sod mod 60)
              (ms mod 1000 * 1000))
  else Raise ValueError.

End Dt.

(* ================================================================== *)
(** * class NewInformation *)
(* ================================================================== *)

(** Information about one news article. *)
Record NewInformation : Type := {
  title : string;
  date : Dt.datetime;
  description : string;
  image_url : string
}.

Definition count_of_phrase_occurrences (a : NewInformation) (phrase : string) : Z :=
  (PyStr.count (title a) phrase + PyStr.count (description a) phrase)%Z.

Definition has_money (a : NewInformation) : bool :=
  Re.search Re.money (title a) || Re.search Re.money (description a).

(* ================================================================== *)
(** * class NewsParameters *)
(* ================================================================== *)

(** The payload of a work item is a JSON document. *)
Inductive json : Type :=
| JNull
| JBool (b : bool)
| JNum (n : Z)
| JStr (s : string)
| JList (l : list json)
| JDict (d : gmap string json).

Module NewsParameters.

(** The three private attributes; Python does not constrain their
    types, they hold whatever the payload carries. *)
Record t : Type := { phrase : json; months : json; topic : json }.

(** The class-level defaults. *)
Definition defaults : t :=
  {| phrase := JStr ""; months := JNum 0; topic := JStr "" |}.

(** [obj.get(key)]: only mappings have the method; a missing key gives
    [None], which is also how JSON [null] reads. *)
Definition get (obj : json) (key : string) : result json :=
  match obj with
  | JDict d => Ok (default JNull (d !! key))
  | _ => Raise AttributeError
  end.

(** [x if x is not None else dflt] *)
Definition or_else (x dflt : json) : json :=
  match x with
  | JNull => dflt
  | _ => x
  end.

(** [NewsParameters.__init__], applied to the current payload. *)
Definition init (payload : json) : result t :=
  search_parameters ← get payload "search" ;
  match search_parameters with
  | JNull => Ok defaults
  | _ =>
      p ← get search_parameters "phrase" ;
      m ← get search_parameters "months" ;
      tp ← get search_parameters "topic" ;
      Ok {| phrase := or_else p (phrase defaults);
            months := or_else m (months defaults);
            topic := or_else tp (topic defaults) |}
  end.

Definition get_phrase (p : t) : json := phrase p.
Definition get_months (p : t) : json := months p.
Definition get_topic (p : t) : json := topic p.

End NewsParameters.

(* ================================================================== *)
(** * The browser session and LATimesLogic.get_news *)
(* ================================================================== *)

Module Robot.

(** One [<li>] of the results menu, reduced to what the locators of
    [get_news] can see in it.  An outer [None] means that the element
    is not in the page; for the two attributes, an inner [None] means
    that the element is there without the attribute. *)
Record result_item : Type := {
  promo_timestamp : option (option string);  (* p.promo-timestamp, @data-timestamp *)
  promo_media : option (option string);      (* div.promo-media/a/picture/img, @src *)
  promo_title : option string;               (* text of h3.promo-title/a *)
  promo_description : option string          (* text of p.promo-description *)
}.

(** A page of search results. *)
Record page : Type := {
  results : list result_item;   (* the <li> children of the results menu *)
  next_page : bool              (* is the next-page link displayed? *)
}.

Definition blank : page := {| results := []; next_page := false |}.

(** What the robot leaves behind. *)
Inductive event : Type :=
| Logged (msg : string)              (* logging.error *)
| Saved (url filename : string)      (* urllib.request.urlretrieve *)
| Slept (seconds : nat).             (* time.sleep *)

(** Everything outside the Python process that [get_news] talks to. *)
Record world : Type := {
  pages : list page;               (* the result pages of the site, in order *)
  shown : nat;                     (* index of the page displayed *)
  clock : nat -> Dt.datetime;      (* successive readings of datetime.now() *)
  ticks : nat;                     (* readings taken so far *)
  intercepted : nat -> bool;       (* is the n-th click on the link intercepted? *)
  clicks : nat;                    (* clicks on the link so far *)
  fromtimestamp_ms : Z -> result Dt.datetime;
                                   (* datetime.fromtimestamp(n / 1000.0) here *)
  download_fails : string -> string -> bool;
                                   (* does fetching this URL into this file fail? *)
  trace : list event               (* effects so far, oldest first *)
}.

Definition shown_page (w : world) : page := nth (shown w) (pages w) blank.

Definition with_ticks (n : nat) (w : world) : world :=
  {| pages := pages w; shown := shown w; clock := clock w; ticks := n;
     intercepted := intercepted w; clicks := clicks w;
     fromtimestamp_ms := fromtimestamp_ms w;
     download_fails := download_fails w; trace := trace w |}.

Definition with_click (moved : bool) (w : world) : world :=
  {| pages := pages w;
     shown := if moved then S (shown w) else shown w;
     clock := clock w; ticks := ticks w;
     intercepted := intercepted w; clicks := S (clicks w);
     fromtimestamp_ms := fromtimestamp_ms w;
     download_fails := download_fails w; trace := trace w |}.

Definition with_event (e : event) (w : world) : world :=
  {| pages := pages w; shown := shown w; clock := clock w; ticks := ticks w;
     intercepted := intercepted w; clicks := clicks w;
     fromtimestamp_ms := fromtimestamp_ms w;
     download_fails := download_fails w; trace := trace w ++ [e] |}.

(** ** The monad of the scraping code: state, exceptions, and loops
    that may still be running when the fuel is spent. *)

Inductive outcome (A : Type) : Type :=
| Done (a : A) (w : world)        (* normal completion *)
| Raised (e : exn) (w : world)    (* an exception propagates *)
| Unfinished.                     (* the while loop needs more iterations *)
Arguments Done {A} a w.
Arguments Raised {A} e w.
Arguments Unfinished {A}.

Definition M (A : Type) : Type := world -> outcome A.

Definition ret {A} (a : A) : M A := fun w => Done a w.

Definition bind {A B} (m : M A) (k : A -> M B) : M B :=
  fun w =>
    match m w with
    | Done a w' => k a w'
    | Raised e w' => Raised e w'
    | Unfinished => Unfinished
    end.

Definition raise {A} (e : exn) : M A := fun w => Raised e w.

Definition lift {A} (r : result A) : M A :=
  match r with
  | Ok a => ret a
  | Raise e => raise e
  end.

(** [try: m  except e: handler] *)
Definition try_except {A} (m : M A) (e : exn) (handler : M A) : M A :=
  fun w =>
    match m w with
    | Raised e' w' => if decide (e' = e) then handler w' else Raised e' w'
    | o => o
    end.

#[global] Instance M_ret : MRet M := @ret.
#[global] Instance M_bind : MBind M := fun A B k m => bind m k.

(** ** The operations of the session *)

(** [datetime.now()] *)
Definition now : M Dt.datetime :=
  fun w => Done (clock w (ticks w)) (with_ticks (S (ticks w)) w).

(** [logging.error(msg)] *)
Definition logging_error (msg : string) : M unit :=
  fun w => Done tt (with_event (Logged msg) w).

(** [sleep(seconds)] *)
Definition sleep (seconds : nat) : M unit :=
  fun w => Done tt (with_event (Slept seconds) w).

(** [browser.find_elements(locator)] for the results locator. *)
Definition find_elements : M (list result_item) :=
  fun w => Done (results (shown_page w)) w.

(** [browser.is_element_visible(next_page_link)] *)
Definition is_element_visible_next : M bool :=
  fun w => Done (next_page (shown_page w)) w.

(** The element that a locator of the form [locator[i]//...] designates
    in the page displayed: the sub-element [part] of the i-th [<li>],
    counting from one. *)
Definition find_in_result {A} (part : result_item -> option A)
    (result_index : nat) : M A :=
  fun w =>
    match result_index with
    | O => Raised ElementNotFound w
    | S i =>
        match results (shown_page w) !! i ≫= part with
        | Some a => Done a w
        | None => Raised ElementNotFound w
        end
    end.

(** [browser.get_element_attribute(locator, attribute)] *)
Definition get_element_attribute (part : result_item -> option (option string))
    (result_index : nat) : M (option string) :=
  find_in_result part result_index.

(** [browser.get_text(locator)] *)
Definition get_text (part : result_item -> option string)
    (result_index : nat) : M string :=
  find_in_result part result_index.

(** [browser.click_link(next_page_link)] *)
Definition click_link_next : M unit :=
  fun w =>
    if next_page (shown_page w) then
      if intercepted w (clicks w)
      then Raised ElementClickInterceptedException (with_click false w)
      else Done tt (with_click true w)
    else Raised ElementNotFound w.

(** [urllib.request.urlretrieve(url, path)] into the [news] folder.
    Whether the transfer succeeds is up to the network and the file
    system; a failure surfaces as an [OSError] ([URLError] and
    [FileNotFoundError] are such). *)
Definition urlretrieve (url : option string) (filename : string) : M unit :=
  fun w =>
    match url with
    | None => Raised TypeError w
    | Some u =>
        if download_fails w u filename then Raised OSError w
        else Done tt (with_event (Saved u filename) w)
    end.

(** ** get_news *)

(** How a value is rendered inside an f-string. *)
Definition fmt_opt (o : option string) : string :=
  match o with
  | Some s => s
  | None => "None"
  end.

(** [datetime.fromtimestamp(int(timestamp)/1000.0)] *)
Definition convert (timestamp : option string) : M Dt.datetime :=
  match timestamp with
  | None => raise TypeError
  | Some s =>
      match PyStr.int s with
      | None => raise ValueError
      | Some n => fun w => lift (fromtimestamp_ms w n) w
      end
  end.

(** The date of a result: the converted timestamp, or the current time
    when the conversion raises [ValueError]. *)
Definition resolve_date (timestamp : option string) (result_index : nat)
    : M Dt.datetime :=
  date_time ← now ;
  try_except (convert timestamp) ValueError
    (logging_error ("Could not convert to date: index("
                      ++ PyStr.of_nat result_index ++ ")") ;;
     ret date_time).

(** What one turn of the [for] loop asks for next. *)
Inductive flow : Type :=
| Return (news : list NewInformation)     (* [return news] *)
| Continue (news : list NewInformation).  (* go on, with the list so far *)

(** The body of the [for] loop.  Creating the [news] folder before the
    download changes nothing that the function reads later; it is left
    out. *)
Definition for_body (max_date_to_search : Dt.datetime) (page : nat)
    (news : list NewInformation) (result_index : nat) : M flow :=
  timestamp ← get_element_attribute promo_timestamp result_index ;
  image_url ← get_element_attribute promo_media result_index ;
  date_time ← resolve_date timestamp result_index ;
  if Dt.ltb date_time max_date_to_search then ret (Return news)
  else
    let filename :=
      PyStr.of_nat page ++ "-" ++ fmt_opt timestamp ++ "-"
        ++ PyStr.of_nat result_index ++ ".png" in
    urlretrieve image_url filename ;;
    title_text ← get_text promo_title result_index ;
    description_text ← get_text promo_description result_index ;
    ret (Continue (news ++ [ {| title := title_text;
                                date := date_time;
                                description := description_text;
                                image_url := filename |} ])).

(** [for result_index, element in enumerate(search_results, 1): ...]
    The loop walks the list it is given; the elements themselves are
    not used, the body addresses the page by index. *)
Fixpoint for_results (max_date_to_search : Dt.datetime) (page : nat)
    (search_results : list result_item) (result_index : nat)
    (news : list NewInformation) : M flow :=
  match search_results with
  | [] => ret (Continue news)
  | _ :: rest =>
      r ← for_body max_date_to_search page news result_index ;
      match r with
      | Return v => ret (Return v)
      | Continue news' =>
          for_results max_date_to_search page rest (S result_index) news'
      end
  end.

(** [for _ in range(attempts): try: click  except Intercepted: sleep(1)] *)
Fixpoint click_attempts (attempts : nat) : M unit :=
  match attempts with
  | O => ret tt
  | S k =>
      try_except click_link_next ElementClickInterceptedException (sleep 1) ;;
      click_attempts k
  end.

(** The [while] loop; [fuel] bounds the number of turns. *)
Fixpoint while_next (fuel : nat) (max_date_to_search : Dt.datetime)
    (search_results : list result_item) (page : nat)
    (news : list NewInformation) : M (list NewInformation) :=
  match fuel with
  | O => fun _ => Unfinished
  | S fuel' =>
      visible ← is_element_visible_next ;
      if visible : bool then
        r ← for_results max_date_to_search page search_results 1 news ;
        match r with
        | Return v => ret v
        | Continue news' =>
            click_attempts 3 ;;
            while_next fuel' max_date_to_search search_results (S page) news'
        end
      else ret news
  end.

(** [LATimesLogic.get_news(months)] *)
Definition get_news (fuel : nat) (months : Z) : M (list NewInformation) :=
  search_results ← find_elements ;
  t ← now ;
  max_date_to_search ← lift (Dt.max_date_to_search t months) ;
  while_next fuel max_date_to_search search_results 0 [].

End Robot.

Local Open Scope list_scope.

(** The loop over the click attempts once more, for a [click_link] that
    may fail in any way: the library can raise other errors than the two
    that [Robot.click_link_next] tells apart.
    [for _ in range(attempts): try: click  except Intercepted: sleep(1)] *)
Fixpoint click_attempts_any (click_link : Robot.M unit) (attempts : nat)
    : Robot.M unit :=
  match attempts with
  | O => mret tt
  | S k =>
      Robot.try_except click_link ElementClickInterceptedException
        (Robot.sleep 1) ;;
      click_attempts_any click_link k
  end.

(* ================================================================== *)
(** * Outside get_news: filter panel, report, orchestrator *)
(* ================================================================== *)

(** What the code outside get_news can raise: the [AssertionError] of a
    timed-out wait, next to the exceptions met so far. *)
Inductive failure : Type :=
| AssertionError
| Py (e : exn).

#[global] Instance failure_eq_dec : EqDecision failure.
Proof. solve_decision. Defined.

(** State and exceptions once more, over any state [S]: the orchestrator
    is written against an interface and does not know the session. *)
Module Eff.

Inductive outcome (S A : Type) : Type :=
| Done (a : A) (s : S)
| Raised (e : failure) (s : S)
| Unfinished.
Arguments Done {S A} a s.
Arguments Raised {S A} e s.
Arguments Unfinished {S A}.

Definition M (S A : Type) : Type := S -> outcome S A.

Definition ret {S A} (a : A) : M S A := fun s => Done a s.

Definition bind {S A B} (m : M S A) (k : A -> M S B) : M S B :=
  fun s =>
    match m s with
    | Done a s' => k a s'
    | Raised e s' => Raised e s'
    | Unfinished => Unfinished
    end.

Definition raise {S A} (e : failure) : M S A := fun s => Raised e s.

Definition lift {S A} (r : result A) : M S A :=
  match r with
  | Ok a => ret a
  | Raise e => raise (Py e)
  end.

(** [try: m  except e: handler] *)
Definition try_except {S A} (m : M S A) (e : failure) (handler : M S A) : M S A :=
  fun s =>
    match m s with
    | Raised e' s' => if decide (e' = e) then handler s' else Raised e' s'
    | o => o
    end.

#[global] Instance M_ret {S} : MRet (M S) := @ret S.
#[global] Instance M_bind {S} : MBind (M S) := fun A B k m => bind m k.

End Eff.

(** [str.strip()]: the white space it removes is the blank, tab to
    carriage return, and the separators 28 to 31. *)
Definition is_whitespace (c : ascii) : bool :=
  let n := nat_of_ascii c in
  (n =? 32)%nat || ((9 <=? n)%nat && (n <=? 13)%nat)
  || ((28 <=? n)%nat && (n <=? 31)%nat).

Fixpoint lstrip_ws (s : list ascii) : list ascii :=
  match s with
  | c :: s' => if is_whitespace c then lstrip_ws s' else s
  | [] => []
  end.

Definition strip_ws (s : list ascii) : list ascii :=
  rev (lstrip_ws (rev (lstrip_ws s))).

Definition str_strip (s : string) : string :=
  string_of_list_ascii (strip_ws (PyStr.chars s)).

(** The part of LATimesLogic that prepares the result pages. *)
Module Panel.
Import Eff.

(** The keywords of the browser library that these methods call. *)
Inductive keyword : Type :=
| open_available_browser (url : string)
| click_button (locator : string)
| input_text (locator : string) (text : json)
| wait_until_page_contains_element (locator : string)
| select_from_list_by_label (locator label : string)
| wait_until_element_is_visible (locator : string)
| select_checkbox (locator : string)
| click_button_when_visible (locator : string).

(** The session as these methods see it.  What the browser shows and
    whether a keyword fails may depend on everything done before. *)
Record session : Type := {
  called : list keyword;                  (* keywords run so far, oldest first *)
  visible : list keyword -> string -> bool;
                                          (* is_element_visible after these calls *)
  breaks : list keyword -> keyword -> option failure;
                                          (* does the keyword raise after these calls? *)
  log : list string                       (* logging.error *)
}.

Definition with_called (k : keyword) (s : session) : session :=
  {| called := called s ++ [k]; visible := visible s; breaks := breaks s;
     log := log s |}.

Definition with_log (msg : string) (s : session) : session :=
  {| called := called s; visible := visible s; breaks := breaks s;
     log := log s ++ [msg] |}.

(** Running a keyword. *)
Definition run (k : keyword) : M session unit :=
  fun s =>
    match breaks s (called s) k with
    | Some e => Raised e (with_called k s)
    | None => Done tt (with_called k s)
    end.

(** [browser.is_element_visible(locator)] *)
Definition is_element_visible (locator : string) : M session bool :=
  fun s => Done (visible s (called s) locator) s.

(** [logging.error(msg)] *)
Definition logging_error (msg : string) : M session unit :=
  fun s => Done tt (with_log msg s).

Definition LATIMES_SITE : string := "https://www.latimes.com/".

Definition filters_open_button : string := "class:filters-open-button".

(** The locator of the checkbox of a topic: the template with the topic
    in the place of the field 0. *)
Definition checkbox_locator (topic : string) : string :=
  ("//label[@class='checkbox-input-label' and span[text()='" ++ topic
     ++ "']]/input")%string.

(** The template as it stands in the source, with its field unfilled. *)
Definition checkbox_template : string := checkbox_locator "{0}".

(** [LATimesLogic.open_site] *)
Definition open_site : M session unit :=
  run (open_available_browser LATIMES_SITE).

(** [LATimesLogic.enter_phrase] *)
Definition enter_phrase (query : json) : M session unit :=
  run (click_button "data:element:search-button") ;;
  run (input_text "data:element:search-form-input" query) ;;
  run (click_button "data:element:search-submit-button").

(** [topic.strip()]: only a [str] has the method. *)
Definition strip (topic : json) : M session string :=
  match topic with
  | JStr t => ret (str_strip t)
  | _ => raise (Py AttributeError)
  end.

(** [if browser.is_element_visible(locator): keyword] *)
Definition when_visible (locator : string) (k : keyword) : M session unit :=
  v ← is_element_visible locator ;
  if v : bool then run k else ret tt.

(** [LATimesLogic.order_and_select_category] *)
Definition order_and_select_category (topic : json) : M session unit :=
  run (wait_until_page_contains_element "name:s") ;;
  run (select_from_list_by_label "name:s" "Newest") ;;
  clean_topic ← strip topic ;
  if decide (clean_topic = "") then ret tt
  else
    when_visible filters_open_button (click_button filters_open_button) ;;
    try_except
      (run (wait_until_element_is_visible checkbox_template) ;;
       when_visible checkbox_template
         (select_checkbox (checkbox_locator clean_topic)) ;;
       when_visible filters_open_button
         (click_button_when_visible filters_open_button))
      AssertionError
      (logging_error ("Unable to find topic section: " ++ clean_topic)).

End Panel.

(** The report and the orchestrator. *)
Module SearchContext.
Import Eff.

(** The table of the report, column by column. *)
Record results_dict : Type := {
  Title : list string;
  Description : list string;
  Date : list Dt.datetime;
  HasMoney : list bool;
  PhraseOccurrences : list Z
}.

Definition empty_dict : results_dict :=
  {| Title := []; Description := []; Date := []; HasMoney := [];
     PhraseOccurrences := [] |}.

(** [result.count_of_phrase_occurrences(parameters.get_phrase())]:
    [str.count] accepts nothing but a [str]. *)
Definition count_with (phrase : json) (r : NewInformation) : result Z :=
  match phrase with
  | JStr p => Ok (count_of_phrase_occurrences r p)
  | _ => Raise TypeError
  end.

(** The loop of [__generate_report]: one append to each column per
    article. *)
Fixpoint fill (results : list NewInformation) (phrase : json)
    (d : results_dict) : result results_dict :=
  match results with
  | [] => Ok d
  | r :: rest =>
      n ← count_with phrase r ;
      fill rest phrase
        {| Title := Title d ++ [title r];
           Description := Description d ++ [description r];
           Date := Date d ++ [date r];
           HasMoney := HasMoney d ++ [has_money r];
           PhraseOccurrences := PhraseOccurrences d ++ [n] |}
  end.

(** [SearchContext.__generate_report]: the table that is handed to the
    spreadsheet library, with its header row, and saved. *)
Definition generate_report (results : list NewInformation)
    (parameters : NewsParameters.t) : result results_dict :=
  fill results (NewsParameters.get_phrase parameters) empty_dict.

(** [BaseNewsLogic]: what a news source has to offer.  (The browser that
    [set_browser] hands over is the state the methods run in.) *)
Record BaseNewsLogic (S : Type) : Type := {
  open_site : M S unit;
  enter_phrase : json -> M S unit;
  order_and_select_category : json -> M S unit;
  get_news : json -> M S (list NewInformation)
}.
Arguments open_site {S} _.
Arguments enter_phrase {S} _ _.
Arguments order_and_select_category {S} _ _.
Arguments get_news {S} _ _.

(** [SearchContext.search] *)
Definition search {S} (news_logic : BaseNewsLogic S)
    (parameters : NewsParameters.t) : M S results_dict :=
  open_site news_logic ;;
  enter_phrase news_logic (NewsParameters.get_phrase parameters) ;;
  order_and_select_category news_logic (NewsParameters.get_topic parameters) ;;
  results ← get_news news_logic (NewsParameters.get_months parameters) ;
  lift (generate_report results parameters).

End SearchContext.

(** The argument that [SearchContext.search] hands to get_news is the
    [months] attribute as the payload gave it.  [months_delta] is the
    value of [months - 1 if months else 0] on it: empty texts and
    containers, [False] and [None] are falsy; [True - 1] is 0; a text or a
    container that is not empty cannot be decremented.  (Numbers with a
    fraction are not among the JSON values modelled.) *)
Definition months_delta (months : json) : result Z :=
  match months with
  | JNum n => Ok (if (n =? 0)%Z then 0 else n - 1)%Z
  | JNull | JBool _ => Ok 0%Z
  | JStr s => if decide (s = "") then Ok 0%Z else Raise TypeError
  | JList l => if decide (length l = 0) then Ok 0%Z else Raise TypeError
  | JDict d => if decide (size d = 0) then Ok 0%Z else Raise TypeError
  end.

(** get_news as [search] calls it. *)
Definition get_news_json (fuel : nat) (months : json)
    : Robot.M (list NewInformation) :=
  search_results ← Robot.find_elements ;
  t ← Robot.now ;
  k ← Robot.lift (months_delta months) ;
  max_date_to_search ←
    Robot.lift (d ← Dt.sub t (Dt.relativedelta_months k) ; Dt.replace_day d 1) ;
  Robot.while_next fuel max_date_to_search search_results 0 [].

(* ================================================================== *)
(** * Vocabulary of the specification *)
(* ================================================================== *)

Local Open Scope list_scope.

(** [disjoint_occurrences sub s n]: [n] copies of [sub] can be found in
    [s], one after the other without overlap. *)
Inductive disjoint_occurrences (sub : list ascii) : list ascii -> nat -> Prop :=
| occ_none s : disjoint_occurrences sub s 0
| occ_more gap s n :
    disjoint_occurrences sub s n ->
    disjoint_occurrences sub (gap ++ sub ++ s) (S n).

(** The number of non-overlapping occurrences of [sub] in [s]: the
    largest number of copies that fit. *)
Definition occurrence_count (sub s : string) (n : nat) : Prop :=
  disjoint_occurrences (PyStr.chars sub) (PyStr.chars s) n /\
  forall m, disjoint_occurrences (PyStr.chars sub) (PyStr.chars s) m -> m <= n.

(** Two decimal digits side by side somewhere in the text. *)
Fixpoint has_adjacent_digits (s : list ascii) : bool :=
  match s with
  | a :: s' =>
      (PyStr.is_digit a &&
       match s' with
       | b :: _ => PyStr.is_digit b
       | [] => false
       end)
      || has_adjacent_digits s'
  | [] => false
  end.

(** Two decimal digits with exactly one comma between them. *)
Fixpoint has_comma_digits (s : list ascii) : bool :=
  match s with
  | a :: s' =>
      (PyStr.is_digit a &&
       match s' with
       | b :: c :: _ => Ascii.eqb b "," && PyStr.is_digit c
       | _ => false
       end)
      || has_comma_digits s'
  | [] => false
  end.

Definition has_digit_pair (s : string) : bool :=
  has_adjacent_digits (PyStr.chars s) || has_comma_digits (PyStr.chars s).

(** The currency form as the specification words it: an optional dollar
    sign, one to three digits, optional grouping and decimals, an
    optional blank and an optional "dollars" or "USD". *)
Definition currency_form : Re.regex :=
  Re.Cat (Re.Opt (Re.Lit "$"))
    (Re.Cat (Re.Rep 1 3 Re.Digit)
      (Re.Cat (Re.Star (Re.Cat (Re.Lit ",") (Re.Times 3 Re.Digit)))
        (Re.Cat (Re.Opt (Re.Cat (Re.Lit ".") (Re.Cat Re.Digit (Re.Star Re.Digit))))
          (Re.Cat (Re.Opt (Re.Lit " "))
            (Re.Opt (Re.Alt (Re.Word (PyStr.chars "dollars"))
                            (Re.Word (PyStr.chars "USD")))))))).

(** [s] contains [w] as a substring. *)
Definition contains (s w : string) : Prop :=
  exists pre post, PyStr.chars s = pre ++ PyStr.chars w ++ post.

(** The month reached by going [n] months back from the month of [d],
    as a year and a month number. *)
Definition months_before (n : Z) (d : Dt.datetime) : Z * Z :=
  let idx := (12 * Dt.year d + (Dt.month d - 1) - n)%Z in
  ((idx / 12)%Z, (idx mod 12 + 1)%Z).

(** How far back the cutoff lies: [months - 1] months for a non-zero
    [months], no month at all for zero. *)
Definition months_back (months : Z) : Z :=
  if (months =? 0)%Z then 0%Z else (months - 1)%Z.

(** The cutoff as the specification words it: the first day of that
    month, at midnight. *)
Definition first_day_at_midnight (now : Dt.datetime) (months : Z) : Dt.datetime :=
  let '(y, m) := months_before (months_back months) now in
  Dt.mk y m 1 0 0 0 0.

(** The first day of that month at the time of day of [now]. *)
Definition first_day_same_time (now : Dt.datetime) (months : Z) : Dt.datetime :=
  let '(y, m) := months_before (months_back months) now in
  Dt.mk y m 1 (Dt.hour now) (Dt.minute now) (Dt.second now) (Dt.microsecond now).

(** The value an accessor is expected to give for the key [key] of the
    search mapping [sp]: the value stored there, unless the key is
    missing or holds [null], in which case the default applies. *)
Definition field_or (sp : gmap string json) (key : string) (dflt : json) : json :=
  match sp !! key with
  | Some JNull | None => dflt
  | Some v => v
  end.

(** [a <= b] on datetimes. *)
Definition dt_le (a b : Dt.datetime) : Prop := Dt.ltb b a = false.

(** Sample sites and sessions, used to run [get_news]. *)
Module Sample.
Import Robot.

(** A complete result: timestamp, picture, title and description. *)
Definition item (timestamp name : string) : result_item :=
  {| promo_timestamp := Some (Some timestamp);
     promo_media := Some (Some ("https://img.example/" ++ name ++ ".jpg"))%string;
     promo_title := Some ("Title " ++ name)%string;
     promo_description := Some ("About " ++ name)%string |}.

(** The article that [get_news] builds from [item timestamp name] found
    at position [index] of page number [page]. *)
Definition article (page index : nat) (timestamp name : string)
    (d : Dt.datetime) : NewInformation :=
  {| title := ("Title " ++ name)%string;
     date := d;
     description := ("About " ++ name)%string;
     image_url := (PyStr.of_nat page ++ "-" ++ timestamp ++ "-"
                     ++ PyStr.of_nat index ++ ".png")%string |}.

(** Milliseconds since the epoch of 2024-04-10 and of 2024-02-20, at
    midnight UTC. *)
Definition april_10 : string := "1712707200000".
Definition february_20 : string := "1708387200000".

Definition d_2024_04_10 : Dt.datetime := Dt.mk 2024 4 10 0 0 0 0.
Definition d_2024_03_01 : Dt.datetime := Dt.mk 2024 3 1 0 0 0 0.
Definition d_2024_03_15 : Dt.datetime := Dt.mk 2024 3 15 0 0 0 0.

(** A fresh session on a site: first page displayed, the clock stopped
    at [now_], the machine in UTC, every download successful. *)
Definition session (site : list page) (now_ : Dt.datetime)
    (intercepted_ : nat -> bool) : world :=
  {| pages := site; shown := 0;
     clock := fun _ => now_; ticks := 0;
     intercepted := intercepted_; clicks := 0;
     fromtimestamp_ms := Dt.utc_fromtimestamp_ms;
     download_fails := fun _ _ => false; trace := [] |}.

Definition never : nat -> bool := fun _ => false.
Definition always : nat -> bool := fun _ => true.

(** Of every three clicks the first two are intercepted. *)
Definition third_time_lucky : nat -> bool := fun n => negb (n mod 3 =? 2)%nat.

(** One page showing a recent and an old article, and a next-page link. *)
Definition two_dates : list page :=
  [ {| results := [item april_10 "a"; item february_20 "b"];
       next_page := true |} ].

(** A first page with one result, a second page with two. *)
Definition growing : list page :=
  [ {| results := [item april_10 "a"]; next_page := true |};
    {| results := [item april_10 "b"; item april_10 "c"]; next_page := true |};
    {| results := []; next_page := false |} ].

(** Four pages in a row, each with a next-page link. *)
Definition four_pages : list page :=
  [ {| results := [item april_10 "a"]; next_page := true |};
    {| results := [item april_10 "b"]; next_page := true |};
    {| results := [item april_10 "c"]; next_page := true |};
    {| results := [item april_10 "d"]; next_page := true |} ].

(** A site of two pages: the second one is the last. *)
Definition two_pages : list page :=
  [ {| results := [item april_10 "a"]; next_page := true |};
    {| results := [item april_10 "b"]; next_page := false |} ].

(** A page whose only result carries a timestamp that is not a number. *)
Definition bad_timestamp : list page :=
  [ {| results := [item "yesterday" "a"]; next_page := true |} ].



End Sample.

(** What a run returned, if it completed normally. *)
Definition returned {A} (o : Robot.outcome A) : option A :=
  match o with
  | Robot.Done a _ => Some a
  | _ => None
  end.

(** The world a run ended in, if it ended. *)
Definition final {A} (o : Robot.outcome A) : option Robot.world :=
  match o with
  | Robot.Done _ w | Robot.Raised _ w => Some w
  | Robot.Unfinished => None
  end.

(** The exception a run ended with, if any. *)
Definition raised {A} (o : Robot.outcome A) : option exn :=
  match o with
  | Robot.Raised e _ => Some e
  | _ => None
  end.

(** The file names of the downloads recorded in a trace, oldest first. *)
Definition saved_files (t : list Robot.event) : list string :=
  flat_map (fun e => match e with Robot.Saved _ f => [f] | _ => [] end) t.

(** What a stretch of the traversal has added: [v] extends [news] by
    articles that are not older than the cutoff, and the downloads made
    meanwhile are those of these articles, in the same order. *)
Definition collected (cutoff : Dt.datetime) (news : list NewInformation)
    (w : Robot.world) (v : list NewInformation) (w' : Robot.world) : Prop :=
  exists extra,
    v = news ++ extra /\
    Forall (fun a => dt_le cutoff (date a)) extra /\
    saved_files (Robot.trace w') =
      saved_files (Robot.trace w) ++ map image_url extra.

(** The list carried by a [flow]. *)
Definition flow_news (r : Robot.flow) : list NewInformation :=
  match r with
  | Robot.Return v | Robot.Continue v => v
  end.

(** A result that the body of the loop turns into an article whenever it
    meets it: all four elements are there, the timestamp converts to a
    date that is not before the cutoff, and the picture can be saved. *)
Definition collectable (w : Robot.world) (cutoff : Dt.datetime)
    (it : Robot.result_item) : Prop :=
  exists s n d img ttl dsc,
    Robot.promo_timestamp it = Some (Some s) /\
    PyStr.int s = Some n /\
    Robot.fromtimestamp_ms w n = Ok d /\
    Dt.ltb d cutoff = false /\
    Robot.promo_media it = Some (Some img) /\
    (forall f, Robot.download_fails w img f = false) /\
    Robot.promo_title it = Some ttl /\
    Robot.promo_description it = Some dsc.

(** A session that cannot leave its page: the next-page link is shown,
    every click on it is intercepted, and every result of the page is
    collectable. *)
Definition stuck (cutoff : Dt.datetime) (w : Robot.world) : Prop :=
  Robot.next_page (Robot.shown_page w) = true /\
  (forall n, Robot.intercepted w n = true) /\
  Forall (collectable w cutoff) (Robot.results (Robot.shown_page w)).

(** The name under which the picture of the result at position [index]
    of page number [page] is saved. *)
Definition image_filename (page : nat) (timestamp : string) (index : nat) : string :=
  (PyStr.of_nat page ++ "-" ++ timestamp ++ "-" ++ PyStr.of_nat index ++ ".png")%string.

(** The file of [a] was named at an earlier turn than the one at page
    counter [page] and position [i]. *)
Definition named_before (page i : nat) (a : NewInformation) : Prop :=
  exists p ts j,
    image_url a = image_filename p ts j /\
    (p < page \/ (p = page /\ j < i)).

(** The state a run ended in, if it ended. *)
Definition ended {S A} (o : Eff.outcome S A) : option S :=
  match o with
  | Eff.Done _ s | Eff.Raised _ s => Some s
  | Eff.Unfinished => None
  end.

(** Further samples. *)
Module More.
Import Robot.

(** A page with two recent results followed by an old one. *)
Definition three_results : list page :=
  [ {| results := [Sample.item Sample.april_10 "a";
                   Sample.item Sample.april_10 "b";
                   Sample.item Sample.february_20 "c"];
       next_page := true |} ].

(** A machine that converts the two sample timestamps as a machine in
    UTC does, and rejects every other number. *)
Definition two_timestamps (n : Z) : result Dt.datetime :=
  if (n =? 1712707200000)%Z then Ok Sample.d_2024_04_10
  else if (n =? 1708387200000)%Z then Ok (Dt.mk 2024 2 20 0 0 0 0)
  else Raise ValueError.

(** A fresh session on such a machine, the clock stopped on 2024-03-15. *)
Definition session (site : list page) (intercepted_ : nat -> bool) : world :=
  {| pages := site; shown := 0;
     clock := fun _ => Sample.d_2024_03_15; ticks := 0;
     intercepted := intercepted_; clicks := 0;
     fromtimestamp_ms := two_timestamps;
     download_fails := fun _ _ => false; trace := [] |}.

(** The session on [three_results] before and after get_news(1). *)
Definition before : world := session three_results Sample.never.

Definition after : world :=
  with_ticks 4
    (with_event (Saved "https://img.example/b.jpg" "0-1712707200000-2.png")
       (with_ticks 3
          (with_event (Saved "https://img.example/a.jpg" "0-1712707200000-1.png")
             (with_ticks 2 (with_ticks 1 before))))).

Definition found : list NewInformation :=
  [ Sample.article 0 1 Sample.april_10 "a" Sample.d_2024_04_10;
    Sample.article 0 2 Sample.april_10 "b" Sample.d_2024_04_10 ].

(** A page of one result and no next-page link. *)
Definition last_page : list page :=
  [ {| results := [Sample.item Sample.april_10 "a"]; next_page := false |} ].

(** A browser in which nothing is visible and no keyword fails. *)
Definition quiet : Panel.session :=
  {| Panel.called := [];
     Panel.visible := fun _ _ => false;
     Panel.breaks := fun _ _ => None;
     Panel.log := [] |}.

(** A browser in which everything is visible and no keyword fails. *)
Definition obliging : Panel.session :=
  {| Panel.called := [];
     Panel.visible := fun _ _ => true;
     Panel.breaks := fun _ _ => None;
     Panel.log := [] |}.

(** A browser that shows the button of the filter panel and nothing
    else; waiting for anything to become visible times out. *)
Definition no_checkbox : Panel.session :=
  {| Panel.called := [];
     Panel.visible := fun _ l => bool_decide (l = Panel.filters_open_button);
     Panel.breaks := fun _ k =>
       match k with
       | Panel.wait_until_element_is_visible _ => Some AssertionError
       | _ => None
       end;
     Panel.log := [] |}.

(** Two articles, one of which mentions money. *)
Definition money_article : NewInformation :=
  {| title := "The economy recovers"; date := Sample.d_2024_04_10;
     description := "A fund of $50 million"; image_url := "0-1-1.png" |}.

Definition plain_article : NewInformation :=
  {| title := "Weather"; date := Sample.d_2024_04_10;
     description := "Rain is good for the economy"; image_url := "0-1-2.png" |}.

(** A news source that browses like LATimesLogic and finds these two. *)
Definition two_articles : SearchContext.BaseNewsLogic Panel.session :=
  {| SearchContext.open_site := Panel.open_site;
     SearchContext.enter_phrase := Panel.enter_phrase;
     SearchContext.order_and_select_category := Panel.order_and_select_category;
     SearchContext.get_news := fun _ => mret [money_article; plain_article] |}.

Definition economy : NewsParameters.t :=
  {| NewsParameters.phrase := JStr "economy";
     NewsParameters.months := JNum 1;
     NewsParameters.topic := JStr "" |}.

End More.

(* ================================================================== *)
(** * Properties of str.count *)
(* ================================================================== *)

Section CountFacts.
Implicit Types (sub s r : list ascii) (c : ascii).

Lemma starts_with_app sub r : PyStr.starts_with sub (sub ++ r) = true.
Proof.
  induction sub as [|a sub IH]; simpl; [done|].
  by rewrite Ascii.eqb_refl, IH.
Qed.

Lemma starts_with_inv sub s :
  PyStr.starts_with sub s = true -> exists r, s = sub ++ r.
Proof.
  revert s. induction sub as [|a sub IH]; intros s H; simpl in *.
  - by exists s.
  - destruct s as [|b s]; [done|].
    apply andb_true_iff in H as [Hab Hs].
    apply Ascii.eqb_eq in Hab as ->.
    destruct (IH _ Hs) as [r ->]. by exists r.
Qed.

(** Jumping over [k] characters is dropping them. *)
Lemma count_scan_skip sub k s :
  PyStr.count_scan sub k s = PyStr.count_scan sub 0 (drop k s).
Proof.
  revert k. induction s as [|c s IH]; intros [|k]; try reflexivity.
  simpl. apply IH.
Qed.

Lemma count_scan_hit sub r :
  sub <> [] ->
  PyStr.count_scan sub 0 (sub ++ r) = S (PyStr.count_scan sub 0 r).
Proof.
  destruct sub as [|a sub]; [done|]. intros _.
  change ((a :: sub) ++ r) with (a :: (sub ++ r)).
  cbn [PyStr.count_scan].
  change (a :: sub ++ r) with ((a :: sub) ++ r).
  rewrite starts_with_app, count_scan_skip. f_equal.
  cbn [length]. replace (S (length sub) - 1) with (length sub) by lia.
  by rewrite drop_app_length.
Qed.

Lemma count_scan_miss sub c s :
  PyStr.starts_with sub (c :: s) = false ->
  PyStr.count_scan sub 0 (c :: s) = PyStr.count_scan sub 0 s.
Proof. intros H. cbn [PyStr.count_scan]. by rewrite H. Qed.

Lemma disjoint_occurrences_length sub s n :
  disjoint_occurrences sub s n -> n * length sub <= length s.
Proof.
  induction 1 as [|gap s n _ IH]; [simpl; lia|].
  rewrite !length_app. simpl. lia.
Qed.

Lemma disjoint_occurrences_cons sub c s n :
  disjoint_occurrences sub s n -> disjoint_occurrences sub (c :: s) n.
Proof.
  destruct 1 as [|gap s n H]; [constructor|].
  by apply (occ_more sub (c :: gap)).
Qed.

(** The scan exhibits as many disjoint copies as it counts. *)
Lemma count_scan_sound sub s :
  sub <> [] -> disjoint_occurrences sub s (PyStr.count_scan sub 0 s).
Proof.
  intros Hsub.
  induction s as [s IH] using (induction_ltof1 _ (@length ascii)).
  unfold ltof in IH.
  destruct s as [|c s]; [constructor|].
  destruct (PyStr.starts_with sub (c :: s)) eqn:E.
  - apply starts_with_inv in E as [r Hr]. rewrite Hr.
    rewrite count_scan_hit by done.
    apply (occ_more sub []). apply IH.
    rewrite Hr, length_app. destruct sub; [done|simpl; lia].
  - rewrite count_scan_miss by done.
    apply disjoint_occurrences_cons, IH. simpl; lia.
Qed.

(** No arrangement of disjoint copies, even inside a suffix of the
    text, has more copies than the scan counts. *)
Lemma count_scan_bound sub :
  sub <> [] ->
  forall s u t m,
    s = u ++ t -> disjoint_occurrences sub t m ->
    m <= PyStr.count_scan sub 0 s.
Proof.
  intros Hsub s.
  induction s as [s IH] using (induction_ltof1 _ (@length ascii)).
  unfold ltof in IH. intros u t m Hs Hocc.
  destruct m as [|m]; [lia|].
  inversion Hocc as [|gap t' m' Hocc' Ht]; subst.
  destruct (u ++ gap ++ sub ++ t') as [|c s] eqn:Es.
  { destruct u, gap, sub; done. }
  destruct (PyStr.starts_with sub (c :: s)) eqn:E.
  - apply starts_with_inv in E as [r Hr].
    rewrite Hr, count_scan_hit by done.
    apply le_n_S.
    assert (Hlen : length (u ++ gap) + length t' = length r).
    { apply (f_equal length) in Es. rewrite Hr in Es.
      rewrite !length_app in *. lia. }
    assert (Hr' : r = take (length (u ++ gap)) r ++ t').
    { assert (E2 : (u ++ gap) ++ sub ++ t' = sub ++ r)
        by (rewrite <- Hr, <- Es; by rewrite <- app_assoc).
      apply (f_equal (drop (length (u ++ gap) + length sub))) in E2.
      rewrite <- (take_drop (length (u ++ gap)) r) at 1.
      f_equal.
      rewrite <- drop_drop, drop_app_length, drop_app_length in E2.
      rewrite Nat.add_comm, <- drop_drop, drop_app_length in E2.
      done. }
    apply (IH r) with (u := take (length (u ++ gap)) r) (t := t'); [|done..].
    rewrite Hr, length_app. destruct sub; [done|simpl; lia].
  - rewrite count_scan_miss by done.
    destruct u as [|c' u].
    + destruct gap as [|c' gap].
      * simpl in Es. rewrite <- Es, starts_with_app in E. done.
      * simpl in Es. injection Es as -> <-.
        apply (IH (gap ++ sub ++ t')) with (u := []) (t := gap ++ sub ++ t');
          [simpl; lia|done|by constructor].
    + simpl in Es. injection Es as -> <-.
      apply (IH (u ++ gap ++ sub ++ t')) with (u := u) (t := gap ++ sub ++ t');
        [simpl; lia|done|by constructor].
Qed.

Lemma chars_nonempty (sub : string) : sub <> "" -> PyStr.chars sub <> [].
Proof. by destruct sub. Qed.

Lemma chars_length (s : string) : length (PyStr.chars s) = String.length s.
Proof. induction s as [|c s IH]; simpl; [done|]. by rewrite IH. Qed.

(** For a non-empty needle, [str.count] is the number of
    non-overlapping occurrences. *)
Lemma count_is_occurrence_count (s sub : string) :
  sub <> "" ->
  exists n, PyStr.count s sub = Z.of_nat n /\ occurrence_count sub s n.
Proof.
  intros Hsub.
  exists (PyStr.count_scan (PyStr.chars sub) 0 (PyStr.chars s)).
  split; [by destruct sub|]. split.
  - by apply count_scan_sound, chars_nonempty.
  - intros m Hm.
    by apply (count_scan_bound _ (chars_nonempty _ Hsub) _ [] (PyStr.chars s)).
Qed.

Lemma occurrence_count_unique (s sub : string) n1 n2 :
  occurrence_count sub s n1 -> occurrence_count sub s n2 -> n1 = n2.
Proof. intros [H1 M1] [H2 M2]. apply Nat.le_antisymm; auto. Qed.

End CountFacts.

(* ================================================================== *)
(** * Properties of the matcher *)
(* ================================================================== *)

Section MatcherFacts.
Implicit Types (r : Re.regex) (s : list ascii) (c : ascii).

Lemma nullable_matches r : Re.nullable r = true -> Re.Matches r [].
Proof.
  induction r; simpl; intros H; try discriminate.
  - constructor.
  - apply andb_true_iff in H as [H1 H2].
    apply (Re.MCat _ _ [] []); auto.
  - apply orb_true_iff in H as [H|H];
      [apply Re.MAltL | apply Re.MAltR]; auto.
  - constructor.
Qed.

Lemma matches_nil_nullable r s :
  Re.Matches r s -> s = [] -> Re.nullable r = true.
Proof.
  induction 1 as [| | |r1 r2 s1 s2 _ IH1 _ IH2| | | |]; intros E; simpl;
    try discriminate; auto.
  - apply app_eq_nil in E as [-> ->]. by rewrite IH1, IH2.
  - rewrite IHMatches by done. done.
  - rewrite IHMatches by done. apply orb_true_r.
Qed.

Lemma nullable_spec r : Re.nullable r = true <-> Re.Matches r [].
Proof.
  split; [apply nullable_matches|].
  intros H. by apply (matches_nil_nullable r []).
Qed.

Lemma deriv_sound c r : forall s,
  Re.Matches (Re.deriv c r) s -> Re.Matches r (c :: s).
Proof.
  induction r as [| |d| |r1 IH1 r2 IH2|r1 IH1 r2 IH2|r1 IH1];
    intros s H; simpl in H.
  - inversion H.
  - inversion H.
  - destruct (Ascii.eqb c d) eqn:E; inversion H; subst.
    apply Ascii.eqb_eq in E as ->. constructor.
  - destruct (PyStr.is_digit c) eqn:E; inversion H; subst.
    by constructor.
  - assert (Hcat : forall t, Re.Matches (Re.Cat (Re.deriv c r1) r2) t ->
                             Re.Matches (Re.Cat r1 r2) (c :: t)).
    { intros t Ht. inversion Ht; subst.
      apply (Re.MCat r1 r2 (c :: _)); auto. }
    destruct (Re.nullable r1) eqn:N; [|by apply Hcat].
    inversion H; subst; [by apply Hcat|].
    apply (Re.MCat r1 r2 []); [by apply nullable_matches | auto].
  - inversion H; subst; [apply Re.MAltL | apply Re.MAltR]; auto.
  - inversion H; subst.
    apply (Re.MStarCons r1 (c :: _)); auto.
Qed.

Lemma deriv_complete c r cs :
  Re.Matches r cs -> forall s, cs = c :: s -> Re.Matches (Re.deriv c r) s.
Proof.
  induction 1 as [|d|d Hd|r1 r2 s1 s2 H1 IH1 H2 IH2|r1 r2 t H IH
                 |r1 r2 t H IH| |r1 s1 s2 H1 IH1 H2 IH2];
    intros s E; simpl.
  - discriminate.
  - injection E as -> <-. rewrite Ascii.eqb_refl. constructor.
  - injection E as -> <-. rewrite Hd. constructor.
  - destruct s1 as [|c1 s1]; simpl in E.
    + rewrite (matches_nil_nullable _ _ H1 eq_refl).
      apply Re.MAltR. auto.
    + injection E as -> <-.
      assert (Re.Matches (Re.Cat (Re.deriv c r1) r2) (s1 ++ s2))
        by (constructor; auto).
      destruct (Re.nullable r1); [by apply Re.MAltL | done].
  - apply Re.MAltL. auto.
  - apply Re.MAltR. auto.
  - discriminate.
  - destruct s1 as [|c1 s1]; simpl in E.
    + apply (IH2 _ E).
    + injection E as -> <-. constructor; auto.
Qed.

Lemma deriv_spec c r s :
  Re.Matches (Re.deriv c r) s <-> Re.Matches r (c :: s).
Proof.
  split; [apply deriv_sound|]. intros H. by apply (deriv_complete c r (c :: s)).
Qed.

(** [match_prefix] finds exactly the matching prefixes. *)
Lemma match_prefix_spec r s :
  Re.match_prefix r s = true <->
  exists m rest, s = m ++ rest /\ Re.Matches r m.
Proof.
  revert r. induction s as [|c s IH]; intros r; simpl.
  - rewrite orb_false_r, nullable_spec. split.
    + intros H. by exists [], [].
    + intros (m & rest & E & H).
      symmetry in E. apply app_eq_nil in E as [-> _]. done.
  - rewrite orb_true_iff, IH, nullable_spec. split.
    + intros [H|(m & rest & -> & H)].
      * by exists [], (c :: s).
      * exists (c :: m), rest. split; [done|]. by apply deriv_spec.
    + intros (m & rest & E & H). destruct m as [|c' m]; [by left|].
      simpl in E. injection E as <- ->. right.
      exists m, rest. split; [done|]. by apply deriv_spec.
Qed.

(** [search_chars] finds exactly the matching substrings. *)
Lemma search_chars_spec r s :
  Re.search_chars r s = true <->
  exists pre m post, s = pre ++ m ++ post /\ Re.Matches r m.
Proof.
  induction s as [|c s IH]; simpl.
  - rewrite !orb_false_r, nullable_spec. split.
    + intros H. by exists [], [], [].
    + intros (pre & m & post & E & H).
      symmetry in E. apply app_eq_nil in E as [_ E].
      apply app_eq_nil in E as [-> _]. done.
  - rewrite orb_true_iff, IH.
    change (Re.nullable r || Re.match_prefix (Re.deriv c r) s)
      with (Re.match_prefix r (c :: s)).
    rewrite match_prefix_spec. split.
    + intros [(m & rest & E & H)|(pre & m & post & -> & H)].
      * by exists [], m, rest.
      * by exists (c :: pre), m, post.
    + intros (pre & m & post & E & H). destruct pre as [|c' pre].
      * left. by exists m, post.
      * simpl in E. injection E as <- ->. right. by exists pre, m, post.
Qed.

End MatcherFacts.

(* ================================================================== *)
(** * What the money pattern matches *)
(* ================================================================== *)

Section MoneyFacts.
Implicit Types (r : Re.regex) (s x : list ascii) (c d : ascii).

Ltac invert H := inversion H; subst; clear H.

Lemma matches_opt_nil r : Re.Matches (Re.Opt r) [].
Proof. apply Re.MAltR. constructor. Qed.

Lemma matches_opt_inv r s : Re.Matches (Re.Opt r) s -> s = [] \/ Re.Matches r s.
Proof. intros H. invert H; [by right|]. match goal with H : Re.Matches Re.Eps _ |- _ => invert H end. by left. Qed.

Lemma matches_cat_nil_l r1 r2 s :
  Re.Matches r1 [] -> Re.Matches r2 s -> Re.Matches (Re.Cat r1 r2) s.
Proof. intros H1 H2. by apply (Re.MCat r1 r2 [] s). Qed.

Lemma matches_cat_nil_r r1 r2 s :
  Re.Matches r1 s -> Re.Matches r2 [] -> Re.Matches (Re.Cat r1 r2) s.
Proof.
  intros H1 H2. rewrite <- (app_nil_r s). by apply Re.MCat.
Qed.

Lemma matches_times_digit n x :
  Re.Matches (Re.Times n Re.Digit) x -> Forall (fun c => PyStr.is_digit c = true) x /\ length x = n.
Proof.
  revert x. induction n as [|n IH]; intros x H; simpl in H.
  - invert H. by split.
  - invert H. match goal with H : Re.Matches Re.Digit _ |- _ => invert H end.
    destruct (IH _ ltac:(eassumption)) as [HF HL].
    split; [by constructor | simpl; by rewrite HL].
Qed.

Lemma matches_upto_digit n x :
  Re.Matches (Re.Upto n Re.Digit) x -> Forall (fun c => PyStr.is_digit c = true) x.
Proof.
  revert x. induction n as [|n IH]; intros x H; simpl in H.
  - invert H. constructor.
  - apply matches_opt_inv in H as [->|H]; [constructor|].
    invert H. match goal with H : Re.Matches Re.Digit _ |- _ => invert H end.
    constructor; [done|]. by apply IH.
Qed.

(** [\d{1,3}] matches a non-empty run of digits. *)
Lemma matches_rep_digit x :
  Re.Matches (Re.Rep 1 3 Re.Digit) x ->
  Forall (fun c => PyStr.is_digit c = true) x /\ x <> [].
Proof.
  intros H. unfold Re.Rep in H.
  inversion H as [| | |r1 r2 x1 x2 H1 H2| | | |]; subst; clear H.
  apply (matches_times_digit 1) in H1 as [F1 L1].
  apply (matches_upto_digit 2) in H2.
  split; [by apply Forall_app|].
  destruct x1; [done|done].
Qed.

Lemma matches_rep_one d :
  PyStr.is_digit d = true -> Re.Matches (Re.Rep 1 3 Re.Digit) [d].
Proof.
  intros Hd. unfold Re.Rep.
  apply matches_cat_nil_r; [|apply matches_opt_nil].
  simpl. apply matches_cat_nil_r; by constructor.
Qed.

Lemma last_digit x :
  Forall (fun c => PyStr.is_digit c = true) x -> x <> [] ->
  exists x' d, x = x' ++ [d] /\ PyStr.is_digit d = true.
Proof.
  intros HF Hne.
  destruct (exists_last Hne) as (x' & d & ->).
  exists x', d. split; [done|].
  apply Forall_app in HF as [_ HF]. by invert HF.
Qed.

Lemma matches_cat_inv r1 r2 s :
  Re.Matches (Re.Cat r1 r2) s ->
  exists s1 s2, s = s1 ++ s2 /\ Re.Matches r1 s1 /\ Re.Matches r2 s2.
Proof. intros H. invert H. eauto. Qed.

(** Every match of the money pattern holds a digit, an optional comma
    and another digit in a row. *)
Lemma money_needs_pair s :
  Re.Matches Re.money s ->
  exists pre a b post,
    PyStr.is_digit a = true /\ PyStr.is_digit b = true /\
    (s = pre ++ a :: b :: post \/ s = pre ++ a :: "," %char :: b :: post).
Proof.
  intros H. unfold Re.money in H.
  apply matches_cat_inv in H as (s0 & s1 & -> & _ & H).
  apply matches_cat_inv in H as (g & s2 & -> & Hg & _).
  unfold Re.money_group in Hg.
  apply matches_cat_inv in Hg as (x1 & g1 & -> & Hx1 & Hg).
  apply matches_cat_inv in Hg as (y & g2 & -> & Hy & Hg).
  apply matches_cat_inv in Hg as (x2 & g3 & -> & Hx2 & _).
  apply matches_rep_digit in Hx1 as [F1 N1].
  apply matches_rep_digit in Hx2 as [F2 N2].
  destruct (last_digit x1 F1 N1) as (x1' & a & -> & Ha).
  destruct x2 as [|b x2']; [done|].
  apply Forall_cons in F2 as [Hb _].
  exists (s0 ++ x1'), a, b, (x2' ++ g3 ++ s2).
  split; [done|]. split; [done|].
  apply matches_opt_inv in Hy as [->|Hy].
  - left. by rewrite <- !app_assoc.
  - right. invert Hy. by rewrite <- !app_assoc.
Qed.

Lemma money_group_adjacent a b :
  PyStr.is_digit a = true -> PyStr.is_digit b = true ->
  Re.Matches Re.money_group [a; b].
Proof.
  intros Ha Hb. unfold Re.money_group.
  apply (Re.MCat _ _ [a] [b]); [by apply matches_rep_one|].
  apply matches_cat_nil_l; [apply matches_opt_nil|].
  apply matches_cat_nil_r; [by apply matches_rep_one|].
  by apply nullable_matches.
Qed.

Lemma money_group_comma a b :
  PyStr.is_digit a = true -> PyStr.is_digit b = true ->
  Re.Matches Re.money_group [a; ","%char; b].
Proof.
  intros Ha Hb. unfold Re.money_group.
  apply (Re.MCat _ _ [a] [","%char; b]); [by apply matches_rep_one|].
  apply (Re.MCat _ _ [","%char] [b]); [apply Re.MAltL; constructor|].
  apply matches_cat_nil_r; [by apply matches_rep_one|].
  by apply nullable_matches.
Qed.

(** A match of the group alone is a match of the whole pattern: all
    that surrounds the group is optional. *)
Lemma money_of_group s : Re.Matches Re.money_group s -> Re.Matches Re.money s.
Proof.
  intros H. unfold Re.money.
  apply matches_cat_nil_l; [apply matches_opt_nil|].
  apply matches_cat_nil_r; [done|]. by apply nullable_matches.
Qed.

Lemma has_adjacent_digits_spec s :
  has_adjacent_digits s = true <->
  exists pre a b post,
    s = pre ++ a :: b :: post /\
    PyStr.is_digit a = true /\ PyStr.is_digit b = true.
Proof.
  induction s as [|c s IH]; cbn [has_adjacent_digits].
  - split; [done|]. intros (pre & a & b & post & E & _).
    by destruct pre.
  - rewrite orb_true_iff, IH, andb_true_iff. split.
    + intros [[Hc Hs]|(pre & a & b & post & -> & Ha & Hb)].
      * destruct s as [|b s]; [done|]. by exists [], c, b, s.
      * by exists (c :: pre), a, b, post.
    + intros (pre & a & b & post & E & Ha & Hb).
      destruct pre as [|c' pre]; simpl in E.
      * injection E as -> ->. by left.
      * injection E as -> ->. right. by exists pre, a, b, post.
Qed.

Lemma has_comma_digits_spec s :
  has_comma_digits s = true <->
  exists pre a b post,
    s = pre ++ a :: ","%char :: b :: post /\
    PyStr.is_digit a = true /\ PyStr.is_digit b = true.
Proof.
  induction s as [|c s IH]; cbn [has_comma_digits].
  - split; [done|]. intros (pre & a & b & post & E & _).
    by destruct pre.
  - rewrite orb_true_iff, IH, andb_true_iff. split.
    + intros [[Hc Hs]|(pre & a & b & post & -> & Ha & Hb)].
      * destruct s as [|k [|b s]]; [done..|].
        apply andb_true_iff in Hs as [Hk Hb].
        apply Ascii.eqb_eq in Hk as ->. by exists [], c, b, s.
      * by exists (c :: pre), a, b, post.
    + intros (pre & a & b & post & E & Ha & Hb).
      destruct pre as [|c' pre]; simpl in E.
      * injection E as -> ->. left. by rewrite Hb.
      * injection E as -> ->. right. by exists pre, a, b, post.
Qed.

(** [re.search] with the money pattern succeeds exactly on the texts
    that hold two digits side by side or around one comma. *)
Lemma search_money (s : string) : Re.search Re.money s = has_digit_pair s.
Proof.
  unfold Re.search, has_digit_pair. apply eq_true_iff_eq.
  rewrite search_chars_spec, orb_true_iff,
    has_adjacent_digits_spec, has_comma_digits_spec.
  split.
  - intros (pre & m & post & E & H).
    apply money_needs_pair in H as (p & a & b & q & Ha & Hb & [->| ->]).
    + left. exists (pre ++ p), a, b, (q ++ post).
      rewrite E, <- !app_assoc. done.
    + right. exists (pre ++ p), a, b, (q ++ post).
      rewrite E, <- !app_assoc. done.
  - intros [(pre & a & b & post & E & Ha & Hb)
           |(pre & a & b & post & E & Ha & Hb)].
    + exists pre, [a; b], post. split; [done|].
      by apply money_of_group, money_group_adjacent.
    + exists pre, [a; ","%char; b], post. split; [done|].
      by apply money_of_group, money_group_comma.
Qed.

Lemma has_money_digit_pair (a : NewInformation) :
  has_money a = has_digit_pair (title a) || has_digit_pair (description a).
Proof. unfold has_money. by rewrite !search_money. Qed.

End MoneyFacts.

(* ================================================================== *)
(** * The cutoff date *)
(* ================================================================== *)

Section CutoffFacts.
Local Open Scope Z_scope.

Lemma days_in_month_bounds y m : 28 <= Dt.days_in_month y m <= 31.
Proof.
  unfold Dt.days_in_month.
  repeat match goal with |- context [if ?b then _ else _] => destruct b end; lia.
Qed.

Lemma c_int_spec x : Dt.c_int x = true <-> -2147483648 <= x <= 2147483647.
Proof. unfold Dt.c_int. rewrite andb_true_iff, !Z.leb_le. lia. Qed.

(** [replace] with fields that a [datetime] can hold. *)
Lemma replace_ymd_in_range d y m dd :
  1 <= y <= 9999 -> 1 <= m <= 12 -> 1 <= dd <= Dt.days_in_month y m ->
  Dt.replace_ymd d y m dd =
    Ok (Dt.mk y m dd (Dt.hour d) (Dt.minute d) (Dt.second d) (Dt.microsecond d)).
Proof.
  intros Hy Hm Hd. pose proof (days_in_month_bounds y m).
  unfold Dt.replace_ymd.
  replace (Dt.c_int y && Dt.c_int m && Dt.c_int dd) with true.
  2:{ symmetry. rewrite !andb_true_iff, !c_int_spec. lia. }
  cbn [negb].
  replace (_ && _ && _ && _ && _ && _) with true; [done|].
  symmetry. rewrite !andb_true_iff, !Z.leb_le. lia.
Qed.

(** [replace] with a year that a [datetime] cannot hold never succeeds;
    it raises [ValueError] when the year is a C integer. *)
Lemma replace_ymd_year d y m dd :
  ~ 1 <= y <= 9999 ->
  (forall r, Dt.replace_ymd d y m dd <> Ok r) /\
  (Dt.c_int y = true -> 1 <= m <= 12 -> 1 <= dd <= 31 ->
   Dt.replace_ymd d y m dd = Raise ValueError).
Proof.
  intros Hy. unfold Dt.replace_ymd.
  replace ((1 <=? y) && (y <=? 9999)) with false.
  2:{ symmetry. apply andb_false_iff. rewrite !Z.leb_gt. lia. }
  cbn [andb]. split.
  - intros r. by destruct (negb _).
  - intros Hc Hm Hd.
    replace (Dt.c_int y && Dt.c_int m && Dt.c_int dd) with true; [done|].
    symmetry. rewrite !andb_true_iff, !c_int_spec.
    apply c_int_spec in Hc. lia.
Qed.

(** The delta subtracted from [now], seen from the side of [add]: it
    stands for [k] months back, split into years and at most eleven
    months. *)
Lemma neg_relativedelta_months k :
  let rd := Dt.neg (Dt.relativedelta_months k) in
  12 * Dt.years rd + Dt.months rd = - k /\ -11 <= Dt.months rd <= 11.
Proof.
  unfold Dt.neg, Dt.relativedelta_months, Dt.fix_, Dt.sign; cbn [Dt.years Dt.months].
  destruct (Z.ltb_spec 11 (Z.abs k)) as [Hk|Hk]; cbn [Dt.years Dt.months].
  - destruct (Z.ltb_spec k 0) as [Hn|Hn].
    + pose proof (Z.mod_pos_bound (k * -1) 12 ltac:(lia)).
      pose proof (Z.div_mod (k * -1) 12 ltac:(lia)).
      destruct (Z.ltb_spec 11 (Z.abs (- (((k * -1) mod 12) * -1)))); [lia|].
      cbn [Dt.years Dt.months]. lia.
    + pose proof (Z.mod_pos_bound (k * 1) 12 ltac:(lia)).
      pose proof (Z.div_mod (k * 1) 12 ltac:(lia)).
      destruct (Z.ltb_spec 11 (Z.abs (- (((k * 1) mod 12) * 1)))); [lia|].
      cbn [Dt.years Dt.months]. lia.
  - destruct (Z.ltb_spec 11 (Z.abs (- k))); [lia|].
    cbn [Dt.years Dt.months]. lia.
Qed.

Lemma month_of_index y m idx :
  1 <= m <= 12 -> 12 * y + (m - 1) = idx ->
  y = idx / 12 /\ m = idx mod 12 + 1.
Proof.
  intros Hm <-.
  pose proof (Z.div_mod (12 * y + (m - 1)) 12 ltac:(lia)).
  pose proof (Z.mod_pos_bound (12 * y + (m - 1)) 12 ltac:(lia)).
  lia.
Qed.

(** Subtracting [k] months lands in the month [k] months back, keeps
    the time of day and clamps the day to the length of that month. *)
Lemma sub_months now k :
  Dt.valid now ->
  let '(y, m) := months_before k now in
  1 <= y <= 9999 ->
  Dt.sub now (Dt.relativedelta_months k) =
    Ok (Dt.mk y m (Z.min (Dt.days_in_month y m) (Dt.day now))
          (Dt.hour now) (Dt.minute now) (Dt.second now) (Dt.microsecond now)).
Proof.
  intros (Hy & Hm & Hd & _). unfold months_before.
  set (idx := 12 * Dt.year now + (Dt.month now - 1) - k).
  intros Hrange.
  unfold Dt.sub, Dt.add.
  destruct (neg_relativedelta_months k) as [Hsum Hbound].
  set (rd := Dt.neg (Dt.relativedelta_months k)) in *.
  match goal with
  | |- (let '(y, m) := ?p in _) = _ => destruct p as [y m] eqn:Ep
  end.
  assert (Hym : 1 <= m <= 12 /\ 12 * y + (m - 1) = idx).
  { destruct (Z.eqb_spec (Dt.months rd) 0) as [E0|E0].
    - injection Ep as <- <-. lia.
    - destruct (Z.ltb_spec 12 (Dt.month now + Dt.months rd)).
      + injection Ep as <- <-. lia.
      + destruct (Z.ltb_spec (Dt.month now + Dt.months rd) 1);
          injection Ep as <- <-; lia. }
  destruct Hym as [Hm' Hidx].
  destruct (month_of_index y m idx Hm' Hidx) as [Ey Em].
  assert (Hy' : 1 <= y <= 9999) by (rewrite Ey; exact Hrange).
  rewrite <- Ey, <- Em.
  pose proof (days_in_month_bounds y m).
  apply replace_ymd_in_range; lia.
Qed.

(** The cutoff is the first day of the month [months_back months]
    months back, at the time of day of [now]. *)
Lemma max_date_to_search_value now months :
  Dt.valid now ->
  1 <= fst (months_before (months_back months) now) <= 9999 ->
  Dt.max_date_to_search now months = Ok (first_day_same_time now months).
Proof.
  intros Hv Hrange. unfold Dt.max_date_to_search, first_day_same_time.
  fold (months_back months).
  pose proof (sub_months now (months_back months) Hv) as Hsub.
  destruct (months_before (months_back months) now) as [y m] eqn:E.
  rewrite (Hsub Hrange). cbn.
  unfold Dt.replace_day; cbn [Dt.year Dt.month Dt.hour Dt.minute Dt.second Dt.microsecond].
  assert (Hm : 1 <= m <= 12).
  { unfold months_before in E. injection E as _ <-.
    match goal with |- context [?a mod 12] =>
      pose proof (Z.mod_pos_bound a 12 ltac:(lia)) end. lia. }
  pose proof (days_in_month_bounds y m).
  simpl in Hrange.
  rewrite replace_ymd_in_range by lia. done.
Qed.

(** Outside the years that [datetime] can hold, the subtraction raises:
    there is no cutoff, and the exception is [ValueError] when the year
    reached is a C integer. *)
Lemma max_date_to_search_outside now months :
  Dt.valid now ->
  let y := fst (months_before (months_back months) now) in
  ~ 1 <= y <= 9999 ->
  (forall c, Dt.max_date_to_search now months <> Ok c) /\
  (Dt.c_int y = true -> Dt.max_date_to_search now months = Raise ValueError).
Proof.
  intros (Hy & Hm & Hd & _) y0 Hrange.
  unfold Dt.max_date_to_search. fold (months_back months).
  set (k := months_back months) in *.
  unfold months_before in y0. cbn [fst] in y0.
  set (idx := 12 * Dt.year now + (Dt.month now - 1) - k) in *.
  unfold Dt.sub, Dt.add.
  destruct (neg_relativedelta_months k) as [Hsum Hbound].
  set (rd := Dt.neg (Dt.relativedelta_months k)) in *.
  match goal with
  | |- context [let '(y, m) := ?p in _] => destruct p as [y m] eqn:Ep
  end.
  assert (Hym : 1 <= m <= 12 /\ 12 * y + (m - 1) = idx).
  { destruct (Z.eqb_spec (Dt.months rd) 0) as [E0|E0].
    - injection Ep as <- <-. lia.
    - destruct (Z.ltb_spec 12 (Dt.month now + Dt.months rd)).
      + injection Ep as <- <-. lia.
      + destruct (Z.ltb_spec (Dt.month now + Dt.months rd) 1);
          injection Ep as <- <-; lia. }
  destruct Hym as [Hm' Hidx].
  destruct (month_of_index y m idx Hm' Hidx) as [Ey _].
  assert (Hy' : ~ 1 <= y <= 9999) by (rewrite Ey; exact Hrange).
  pose proof (days_in_month_bounds y m).
  pose proof (days_in_month_bounds (Dt.year now) (Dt.month now)).
  destruct (replace_ymd_year now y m
              (Z.min (Dt.days_in_month y m) (Dt.day now)) Hy') as [Hno Hve].
  split.
  - intros c. destruct (Dt.replace_ymd _ _ _ _) as [r|e] eqn:E; [|done].
    by destruct (Hno r).
  - intros Hc. rewrite Hve; [done| |lia|lia].
    rewrite Ey. exact Hc.
Qed.

(** A cutoff that exists lies within the years 1..9999. *)
Lemma max_date_to_search_defined now months c :
  Dt.valid now ->
  Dt.max_date_to_search now months = Ok c ->
  1 <= fst (months_before (months_back months) now) <= 9999.
Proof.
  intros Hv Hc.
  destruct (decide (1 <= fst (months_before (months_back months) now) <= 9999))
    as [Hr|Hr]; [done|].
  by destruct (proj1 (max_date_to_search_outside now months Hv Hr) c).
Qed.

(** [ValueError] for a year outside 1..9999 that is a C integer. *)
Lemma max_date_to_search_out_of_range now months :
  Dt.valid now ->
  ~ 1 <= fst (months_before (months_back months) now) <= 9999 ->
  Dt.c_int (fst (months_before (months_back months) now)) = true ->
  Dt.max_date_to_search now months = Raise ValueError.
Proof.
  intros Hv Hr Hc.
  exact (proj2 (max_date_to_search_outside now months Hv Hr) Hc).
Qed.

End CutoffFacts.

(* ================================================================== *)
(** * The order on datetimes *)
(* ================================================================== *)

Section OrderFacts.
Local Open Scope Z_scope.

(** [a < b <= c] gives [a < c], field by field. *)
Lemma lex_ltb_le_trans (a b c : list Z) :
  length a = length b -> length b = length c ->
  Dt.lex_ltb a b = true -> Dt.lex_ltb c b = false -> Dt.lex_ltb a c = true.
Proof.
  revert b c. induction a as [|x a IH]; intros [|y b] [|z c] Hab Hbc;
    simpl in *; try discriminate.
  intros H1 H2.
  apply orb_false_iff in H2 as [Hzy H2]. apply Z.ltb_ge in Hzy.
  apply orb_true_iff in H1 as [Hxy|Hxy].
  - apply Z.ltb_lt in Hxy.
    destruct (Z.ltb_spec x z); [done|]. lia.
  - apply andb_true_iff in Hxy as [Exy H1]. apply Z.eqb_eq in Exy as ->.
    destruct (Z.ltb_spec y z); [done|].
    assert (z = y) as -> by lia.
    rewrite Z.eqb_refl in *. simpl in *.
    apply (IH b c); [lia|lia|done|done].
Qed.

Lemma dt_lt_le_trans (a b c : Dt.datetime) :
  Dt.ltb a b = true -> dt_le b c -> Dt.ltb a c = true.
Proof. intros H1 H2. by apply (lex_ltb_le_trans _ (Dt.fields b)). Qed.

Lemma dt_le_trans (a b c : Dt.datetime) : dt_le a b -> dt_le b c -> dt_le a c.
Proof.
  unfold dt_le. intros H1 H2.
  destruct (Dt.ltb c a) eqn:E; [|done].
  by rewrite (dt_lt_le_trans c a b E H1) in H2.
Qed.

(** With a non-negative [months] the cutoff is never in the future. *)
Lemma cutoff_not_after_now now months c :
  Dt.valid now -> 0 <= months ->
  Dt.max_date_to_search now months = Ok c -> dt_le c now.
Proof.
  intros Hv Hm Hc.
  pose proof (max_date_to_search_defined now months c Hv Hc) as Hr.
  rewrite max_date_to_search_value in Hc by done. injection Hc as <-.
  destruct Hv as (Hy & Hmo & Hd & _).
  unfold dt_le, Dt.ltb, first_day_same_time, months_before.
  set (k := months_back months).
  assert (Hk : 0 <= k) by (unfold k, months_back; destruct (Z.eqb_spec months 0); lia).
  set (idx := 12 * Dt.year now + (Dt.month now - 1) - k).
  pose proof (Z.div_mod idx 12 ltac:(lia)) as Hdm.
  pose proof (Z.mod_pos_bound idx 12 ltac:(lia)) as Hmb.
  cbn [Dt.fields Dt.year Dt.month Dt.day Dt.hour Dt.minute Dt.second
       Dt.microsecond Dt.lex_ltb].
  destruct (Z.ltb_spec (Dt.year now) (idx / 12)); [lia|]. cbn [orb].
  destruct (Z.eqb_spec (Dt.year now) (idx / 12)) as [Ey|Ey]; [|done].
  cbn [andb].
  destruct (Z.ltb_spec (Dt.month now) (idx mod 12 + 1)); [lia|]. cbn [orb].
  destruct (Z.eqb_spec (Dt.month now) (idx mod 12 + 1)) as [Em|Em]; [|done].
  cbn [andb].
  destruct (Z.ltb_spec (Dt.day now) 1); [lia|]. cbn [orb].
  destruct (Z.eqb_spec (Dt.day now) 1) as [Ed|Ed]; [|done].
  cbn [andb].
  rewrite !Z.ltb_irrefl, !Z.eqb_refl. done.
Qed.

(** Hence a later reading of a clock that does not run backwards is not
    before the cutoff either. *)
Lemma later_reading_not_before_cutoff now later months c :
  Dt.valid now -> 0 <= months ->
  Dt.max_date_to_search now months = Ok c ->
  dt_le now later -> dt_le c later.
Proof.
  intros Hv Hm Hc Hl.
  apply (dt_le_trans c now later); [|done].
  by apply (cutoff_not_after_now now months).
Qed.

End OrderFacts.

(* ================================================================== *)
(** * NewsParameters *)
(* ================================================================== *)

Section ParameterFacts.
Implicit Types (items sp : gmap string json).

Lemma or_else_field sp key dflt :
  NewsParameters.or_else (default JNull (sp !! key)) dflt = field_or sp key dflt.
Proof. unfold field_or. by destruct (sp !! key) as [[]|]. Qed.

(** Without a search mapping the defaults stay. *)
Lemma init_without_search items :
  default JNull (items !! "search") = JNull ->
  NewsParameters.init (JDict items) = Ok NewsParameters.defaults.
Proof. intros H. unfold NewsParameters.init. cbn. by rewrite H. Qed.

(** With a search mapping every attribute comes from its own key. *)
Lemma init_with_search items sp :
  items !! "search" = Some (JDict sp) ->
  NewsParameters.init (JDict items) =
    Ok {| NewsParameters.phrase := field_or sp "phrase" (JStr "");
          NewsParameters.months := field_or sp "months" (JNum 0);
          NewsParameters.topic := field_or sp "topic" (JStr "") |}.
Proof.
  intros H. unfold NewsParameters.init. cbn. rewrite H. cbn.
  by rewrite !or_else_field.
Qed.

Lemma field_or_insert_ne sp key key' v dflt :
  key' <> key -> field_or (<[key' := v]> sp) key dflt = field_or sp key dflt.
Proof. intros H. unfold field_or. by rewrite lookup_insert_ne. Qed.

End ParameterFacts.

(* ================================================================== *)
(** * The traversal *)
(* ================================================================== *)

Section RobotFacts.
Import Robot.
Implicit Types (w : world) (news : list NewInformation) (it : result_item).

Lemma bind_done {A B} (m : M A) (k : A -> M B) w a w' :
  m w = Done a w' -> (m ≫= k) w = k a w'.
Proof. intros H. unfold mbind, M_bind, bind. by rewrite H. Qed.


Lemma find_in_result_done {A} (part : result_item -> option A) i w it a :
  results (shown_page w) !! i = Some it -> part it = Some a ->
  find_in_result part (S i) w = Done a w.
Proof. intros H1 H2. unfold find_in_result. rewrite H1. simpl. by rewrite H2. Qed.

(** Reading the clock and logging leave the site and the page
    displayed as they are. *)
Lemma resolve_date_page timestamp i w d w' :
  resolve_date timestamp i w = Done d w' -> shown_page w' = shown_page w.
Proof.
  unfold resolve_date, now, try_except, mbind, M_bind, bind, convert.
  destruct timestamp as [s|]; [|done].
  destruct (PyStr.int s) as [n|]; cbn.
  - destruct (fromtimestamp_ms w n) as [d'|e]; cbn.
    + by intros [= <- <-].
    + destruct (decide (e = ValueError)); [|done]. cbn. by intros [= <- <-].
  - by intros [= <- <-].
Qed.



(** A timestamp that converts is the date, and nothing is logged. *)
Lemma resolve_date_converted s n d i w :
  PyStr.int s = Some n ->
  fromtimestamp_ms w n = Ok d ->
  resolve_date (Some s) i w = Done d (with_ticks (S (ticks w)) w).
Proof.
  intros Hs Hn.
  unfold resolve_date, now, try_except, mbind, M_bind, bind, convert.
  rewrite Hs. cbn. rewrite Hn. reflexivity.
Qed.

(** A result without the timestamp attribute: [int(None)] raises
    [TypeError], which the handler does not catch. *)
Lemma resolve_date_missing_attribute i w :
  resolve_date None i w = Raised TypeError (with_ticks (S (ticks w)) w).
Proof. reflexivity. Qed.

(** Neither does it catch what [fromtimestamp] raises besides
    [ValueError]: [OverflowError] or [OSError] for a number that the
    platform cannot take as a time. *)
Lemma resolve_date_other_error s n e i w :
  PyStr.int s = Some n ->
  fromtimestamp_ms w n = Raise e -> e <> ValueError ->
  resolve_date (Some s) i w = Raised e (with_ticks (S (ticks w)) w).
Proof.
  intros Hs Hn He.
  unfold resolve_date, now, try_except, mbind, M_bind, bind, convert.
  rewrite Hs. cbn. rewrite Hn. cbn. by destruct (decide (e = ValueError)).
Qed.


(** The body of the loop on a complete result that is recent enough. *)
Lemma for_body_recent cutoff page news i w it ts img ttl dsc d w' :
  results (shown_page w) !! i = Some it ->
  promo_timestamp it = Some ts -> promo_media it = Some (Some img) ->
  promo_title it = Some ttl -> promo_description it = Some dsc ->
  resolve_date ts (S i) w = Done d w' ->
  Dt.ltb d cutoff = false ->
  let filename := (PyStr.of_nat page ++ "-" ++ fmt_opt ts ++ "-"
                     ++ PyStr.of_nat (S i) ++ ".png")%string in
  download_fails w' img filename = false ->
  for_body cutoff page news (S i) w =
    Done (Continue (news ++ [ {| title := ttl; date := d;
                                 description := dsc; image_url := filename |} ]))
         (with_event (Saved img filename) w').
Proof.
  intros Hit Hts Himg Httl Hdsc Hd Hnew filename Hok.
  pose proof (resolve_date_page _ _ _ _ _ Hd) as Hpage.
  unfold for_body, get_element_attribute, get_text.
  rewrite (bind_done _ _ w ts w) by by apply (find_in_result_done _ i w it).
  rewrite (bind_done _ _ w (Some img) w) by by apply (find_in_result_done _ i w it).
  rewrite (bind_done _ _ w d w') by done.
  rewrite Hnew. fold filename.
  rewrite (bind_done _ _ w' tt (with_event (Saved img filename) w')).
  2:{ unfold urlretrieve. by rewrite Hok. }
  rewrite (bind_done _ _ _ ttl (with_event (Saved img filename) w')).
  2:{ apply (find_in_result_done _ i _ it); [|done].
      change (shown_page (with_event (Saved img filename) w')) with (shown_page w').
      by rewrite Hpage. }
  rewrite (bind_done _ _ _ dsc (with_event (Saved img filename) w')).
  2:{ apply (find_in_result_done _ i _ it); [|done].
      change (shown_page (with_event (Saved img filename) w')) with (shown_page w').
      by rewrite Hpage. }
  reflexivity.
Qed.

(** The [for] loop over a list in two parts. *)
Lemma for_results_app cutoff page pre rest j news w news1 w1 :
  for_results cutoff page pre j news w = Done (Continue news1) w1 ->
  for_results cutoff page (pre ++ rest) j news w =
    for_results cutoff page rest (j + length pre) news1 w1.
Proof.
  revert j news w. induction pre as [|x pre IH]; intros j news w H.
  - cbn in H. injection H as <- <-. by rewrite Nat.add_0_r.
  - cbn [for_results app] in *.
    unfold mbind, M_bind, bind in *.
    destruct (for_body cutoff page news j w) as [[v|news']w'|e w'|]; try done.
    rewrite (IH _ _ _ H). f_equal. simpl. lia.
Qed.


(** The [for] loop uses the list it walks for its length only. *)
Lemma for_results_length cutoff page l1 l2 j news w :
  length l1 = length l2 ->
  for_results cutoff page l1 j news w = for_results cutoff page l2 j news w.
Proof.
  revert l2 j news w. induction l1 as [|x l1 IH]; intros [|y l2] j news w E;
    try done.
  cbn [for_results]. unfold mbind, M_bind, bind.
  destruct (for_body cutoff page news j w) as [[v|news']w'|e w'|]; try done.
  apply IH. simpl in E. lia.
Qed.

(** An intercepted click is answered by a pause of one second. *)
Lemma click_try_intercepted w :
  next_page (shown_page w) = true ->
  intercepted w (clicks w) = true ->
  try_except click_link_next ElementClickInterceptedException (sleep 1) w =
    Done tt (with_event (Slept 1) (with_click false w)).
Proof.
  intros Hn H0. unfold try_except, click_link_next. by rewrite Hn, H0.
Qed.

(** A click that goes through needs no handler. *)
Lemma click_try_passes w :
  next_page (shown_page w) = true ->
  intercepted w (clicks w) = false ->
  try_except click_link_next ElementClickInterceptedException (sleep 1) w =
    Done tt (with_click true w).
Proof.
  intros Hn H0. unfold try_except, click_link_next. by rewrite Hn, H0.
Qed.

(** Three intercepted clicks: three pauses, no exception, same page. *)
Lemma click_attempts_all_intercepted w :
  next_page (shown_page w) = true ->
  intercepted w (clicks w) = true ->
  intercepted w (S (clicks w)) = true ->
  intercepted w (S (S (clicks w))) = true ->
  exists w',
    click_attempts 3 w = Done tt w' /\
    shown w' = shown w /\ pages w' = pages w /\
    clicks w' = 3 + clicks w /\
    trace w' = trace w ++ [Slept 1; Slept 1; Slept 1].
Proof.
  intros Hn H0 H1 H2.
  set (w1 := with_event (Slept 1) (with_click false w)).
  set (w2 := with_event (Slept 1) (with_click false w1)).
  set (w3 := with_event (Slept 1) (with_click false w2)).
  exists w3. split.
  - cbn [click_attempts].
    rewrite (bind_done _ _ w tt w1) by by apply click_try_intercepted.
    rewrite (bind_done _ _ w1 tt w2) by by apply click_try_intercepted.
    rewrite (bind_done _ _ w2 tt w3) by by apply click_try_intercepted.
    reflexivity.
  - cbn. rewrite <- !app_assoc. done.
Qed.

(** Three clicks that go through move three pages forward: the loop
    over the attempts does not stop after a success. *)
Lemma click_attempts_all_pass w :
  next_page (nth (shown w) (pages w) blank) = true ->
  next_page (nth (S (shown w)) (pages w) blank) = true ->
  next_page (nth (S (S (shown w))) (pages w) blank) = true ->
  intercepted w (clicks w) = false ->
  intercepted w (S (clicks w)) = false ->
  intercepted w (S (S (clicks w))) = false ->
  exists w',
    click_attempts 3 w = Done tt w' /\ shown w' = 3 + shown w.
Proof.
  intros P0 P1 P2 H0 H1 H2.
  set (w1 := with_click true w).
  set (w2 := with_click true w1).
  set (w3 := with_click true w2).
  exists w3. split; [|done].
  cbn [click_attempts].
  rewrite (bind_done _ _ w tt w1) by by apply click_try_passes.
  rewrite (bind_done _ _ w1 tt w2) by by apply click_try_passes.
  rewrite (bind_done _ _ w2 tt w3) by by apply click_try_passes.
  reflexivity.
Qed.

(** The [while] loop, too, uses the list fetched before it for its length
    only: the results that it reads are those of the page displayed. *)
Lemma while_next_length fuel cutoff l1 l2 page news w :
  length l1 = length l2 ->
  while_next fuel cutoff l1 page news w = while_next fuel cutoff l2 page news w.
Proof.
  intros E. revert page news w.
  induction fuel as [|fuel IH]; intros page news w; [done|].
  cbn [while_next]. unfold mbind, M_bind, bind, is_element_visible_next.
  destruct (next_page (shown_page w)); [|done].
  rewrite (for_results_length cutoff page l1 l2 1 news w E).
  destruct (for_results cutoff page l2 1 news w) as [[v|news']w'|e w'|];
    try done.
  destruct (click_attempts 3 w') as [[] w''|e w''|]; [apply IH|done|done].
Qed.

(** After three intercepted clicks the loop goes on: it looks again for
    the next-page link, on the page that is still displayed. *)
Lemma while_next_after_intercepted_clicks fuel cutoff l page news w news1 w1 :
  next_page (shown_page w) = true ->
  for_results cutoff page l 1 news w = Done (Continue news1) w1 ->
  next_page (shown_page w1) = true ->
  intercepted w1 (clicks w1) = true ->
  intercepted w1 (S (clicks w1)) = true ->
  intercepted w1 (S (S (clicks w1))) = true ->
  exists w3,
    while_next (S fuel) cutoff l page news w
      = while_next fuel cutoff l (S page) news1 w3 /\
    shown w3 = shown w1 /\ pages w3 = pages w1.
Proof.
  intros Hn Hfor Hn1 H0 H1 H2.
  destruct (click_attempts_all_intercepted w1 Hn1 H0 H1 H2)
    as (w3 & Hc & Hs & Hp & _).
  exists w3. split; [|done].
  cbn [while_next].
  rewrite (bind_done _ _ w true w)
    by (unfold is_element_visible_next; by rewrite Hn).
  rewrite (bind_done _ _ _ _ _ Hfor).
  by rewrite (bind_done _ _ _ _ _ Hc).
Qed.

End RobotFacts.

(* ================================================================== *)
(** * Texts with and without a digit pair *)
(* ================================================================== *)

Section DigitPairFacts.
Implicit Types (s w : string).

(** A digit pair inside a substring is a digit pair of the text. *)
Lemma has_digit_pair_contains s w :
  contains s w -> has_digit_pair w = true -> has_digit_pair s = true.
Proof.
  intros (pre & post & E). unfold has_digit_pair.
  rewrite !orb_true_iff, !has_adjacent_digits_spec, !has_comma_digits_spec, E.
  intros [(p & a & b & q & -> & Ha & Hb)|(p & a & b & q & -> & Ha & Hb)].
  - left. exists (pre ++ p), a, b, (q ++ post). by rewrite <- !app_assoc.
  - right. exists (pre ++ p), a, b, (q ++ post). by rewrite <- !app_assoc.
Qed.

(** One digit is enough for the currency form of the specification. *)
Lemma currency_form_digit d :
  PyStr.is_digit d = true -> Re.Matches currency_form [d].
Proof.
  intros Hd. unfold currency_form.
  apply matches_cat_nil_l; [apply matches_opt_nil|].
  apply matches_cat_nil_r; [by apply matches_rep_one|].
  by apply nullable_matches.
Qed.

Lemma digit_pair_has_currency_form s :
  has_digit_pair s = true -> Re.search currency_form s = true.
Proof.
  unfold has_digit_pair, Re.search.
  rewrite orb_true_iff, has_adjacent_digits_spec, has_comma_digits_spec,
    search_chars_spec.
  intros [(p & a & b & q & -> & Ha & Hb)|(p & a & b & q & -> & Ha & Hb)].
  - exists p, [a], (b :: q). split; [done|]. by apply currency_form_digit.
  - exists p, [a], (","%char :: b :: q). split; [done|].
    by apply currency_form_digit.
Qed.

End DigitPairFacts.

(* ================================================================== *)
(** * The claims *)
(* ================================================================== *)

Local Open Scope string_scope.

(** C1.  get_news does not walk the results of the page displayed: the
    list of results is fetched once, before the loop, and every turn of
    the loop enumerates as many positions as the first page had.  On a
    site whose first page shows one result and whose second page shows
    two, the second result of the second page is never collected, although
    that page was displayed and its first result was taken. *)
Theorem later_page_results_skipped :
  let w := Sample.session Sample.growing Sample.d_2024_03_15
             Sample.third_time_lucky in
  length (Robot.results (nth 1 Sample.growing Robot.blank)) = 2 /\
  returned (Robot.get_news 3 1 w) =
    Some [ Sample.article 0 1 Sample.april_10 "a" Sample.d_2024_04_10;
           Sample.article 1 1 Sample.april_10 "b" Sample.d_2024_04_10 ] /\
  Robot.shown <$> final (Robot.get_news 3 1 w) = Some 2.
Proof. vm_compute. done. Qed.

(** C2.  The loop over the three attempts has no exit after a successful
    click: when no click is intercepted, the link is clicked three times
    and the site moves three pages forward; and when the first click
    reaches the last page, the next attempt finds no link and get_news
    ends with ElementNotFound. *)
Theorem successful_click_is_repeated :
  (let w := Sample.session Sample.four_pages Sample.d_2024_03_15 Sample.never in
   Robot.shown <$> final (Robot.click_attempts 3 w) = Some 3) /\
  (let w := Sample.session Sample.two_pages Sample.d_2024_03_15 Sample.never in
   raised (Robot.get_news 2 1 w) = Some ElementNotFound).
Proof. vm_compute. done. Qed.

(** What holds of the retries: when the three clicks are intercepted,
    nothing is raised, the robot has paused three times and the page
    displayed is the same. *)
Example three_intercepted_clicks :
  let w := Sample.session Sample.two_dates Sample.d_2024_03_15 Sample.always in
  returned (Robot.click_attempts 3 w) = Some tt /\
  Robot.shown <$> final (Robot.click_attempts 3 w) = Some 0 /\
  Robot.trace <$> final (Robot.click_attempts 3 w)
    = Some [Robot.Slept 1; Robot.Slept 1; Robot.Slept 1].
Proof. vm_compute. done. Qed.

(** C3 (as stated, refuted).  With months = 3 and now = 2024-05-15 at
    10:30 the cutoff is 2024-03-01 at 10:30, not 2024-03-01 at midnight:
    replacing the day leaves the time of day of now in place. *)
Lemma cutoff_keeps_time_of_day :
  let now := Dt.mk 2024 5 15 10 30 0 0 in
  Dt.max_date_to_search now 3 = Ok (Dt.mk 2024 3 1 10 30 0 0) /\
  first_day_at_midnight now 3 = Dt.mk 2024 3 1 0 0 0 0 /\
  Dt.max_date_to_search now 3 <> Ok (first_day_at_midnight now 3).
Proof. vm_compute. by repeat split. Qed.

(** C3 (amended).  For every months value whose target month lies within
    the years 1..9999, the cutoff is the first day of the month that is
    months-1 months before the month of now when months is not 0, and the
    first day of the month of now when months is 0; hour, minute, second
    and microsecond are those of now.  In particular the cutoff is at
    midnight exactly when now is: with months = 3 and now = 2024-05-15 at
    00:00:00 it is 2024-03-01 at 00:00:00. *)
Theorem cutoff_is_first_day_at_time_of_now (now : Dt.datetime) (months : Z) :
  Dt.valid now ->
  let back := (if months =? 0 then 0 else months - 1)%Z in
  let idx := (12 * Dt.year now + (Dt.month now - 1) - back)%Z in
  (12 <= idx < 120000)%Z ->
  Dt.max_date_to_search now months =
    Ok (Dt.mk (idx / 12) (idx mod 12 + 1) 1
          (Dt.hour now) (Dt.minute now) (Dt.second now) (Dt.microsecond now)).
Proof.
  intros Hv back idx Hidx.
  rewrite max_date_to_search_value; [done|done|].
  unfold months_before, months_back. fold back. fold idx. cbn [fst].
  pose proof (Z.div_mod idx 12 ltac:(lia)).
  pose proof (Z.mod_pos_bound idx 12 ltac:(lia)).
  lia.
Qed.

Lemma cutoff_is_first_day_at_time_of_now_witness :
  let now := Dt.mk 2024 5 15 0 0 0 0 in
  Dt.valid now /\
  Dt.max_date_to_search now 3 = Ok (Dt.mk 2024 3 1 0 0 0 0).
Proof.
  assert (Hv : Dt.valid (Dt.mk 2024 5 15 0 0 0 0)) by (vm_compute; intuition discriminate).
  split; [exact Hv|].
  apply (cutoff_is_first_day_at_time_of_now (Dt.mk 2024 5 15 0 0 0 0) 3 Hv).
  vm_compute. split; [discriminate|reflexivity].
Defined.



(** The same run through get_news itself: with months = 1 and the clock
    at 2024-03-15 00:00 the cutoff is 2024-03-01 00:00, and the page with
    the dates 2024-04-10 and 2024-02-20 yields the first article only;
    nothing is saved for the second result. *)
Example get_news_two_dates :
  let w := Sample.session Sample.two_dates Sample.d_2024_03_15 Sample.never in
  returned (Robot.get_news 1 1 w)
    = Some [Sample.article 0 1 Sample.april_10 "a" Sample.d_2024_04_10] /\
  Robot.trace <$> final (Robot.get_news 1 1 w)
    = Some [Robot.Saved "https://img.example/a.jpg" "0-1712707200000-1.png"].
Proof. vm_compute. done. Qed.

(** A page without next-page link is not walked at all. *)
Example get_news_single_page :
  let site := [ {| Robot.results := [Sample.item Sample.april_10 "a"];
                   Robot.next_page := false |} ] in
  returned (Robot.get_news 1 1
              (Sample.session site Sample.d_2024_03_15 Sample.never))
    = Some [].
Proof. reflexivity. Qed.




(** The same through the whole [for] loop over that page: the article is
    collected with the clock reading as its date, after the message has
    been logged. *)
Example for_results_bad_timestamp :
  let w := Sample.session Sample.bad_timestamp Sample.d_2024_03_15 Sample.never in
  let run := Robot.for_results Sample.d_2024_03_01 0
               [Sample.item "yesterday" "a"] 1 [] w in
  returned run
    = Some (Robot.Continue
              [Sample.article 0 1 "yesterday" "a" Sample.d_2024_03_15]) /\
  Robot.trace <$> final run
    = Some [Robot.Logged "Could not convert to date: index(1)";
            Robot.Saved "https://img.example/a.jpg" "0-yesterday-1.png"].
Proof. vm_compute. done. Qed.

(** C6 (as stated, refuted).  "$5" is a currency form in the sense of the
    specification (a dollar sign and one digit), yet has_money is false
    for an article whose title is "$5": the pattern asks for two digits. *)
Lemma single_digit_amount_is_not_money :
  let a := {| title := "$5"; date := Sample.d_2024_04_10;
              description := ""; image_url := "" |} in
  Re.search currency_form (title a) = true /\ has_money a = false.
Proof. vm_compute. done. Qed.

(** C6 (amended).  has_money() returns true exactly when the title or the
    description contains two decimal digits that are side by side or
    separated by one comma; so it is true when either contains
    "$1,234.56", "500 dollars" or "1000 USD", and it is false for every
    title and description containing no numeric-currency pattern. *)
Theorem has_money_needs_two_digits (a : NewInformation) :
  (has_money a = true <->
     has_digit_pair (title a) = true \/ has_digit_pair (description a) = true) /\
  (forall w, w ∈ ["$1,234.56"; "500 dollars"; "1000 USD"] ->
     contains (title a) w \/ contains (description a) w -> has_money a = true) /\
  (Re.search currency_form (title a) = false ->
   Re.search currency_form (description a) = false -> has_money a = false).
Proof.
  rewrite has_money_digit_pair. split; [apply orb_true_iff|]. split.
  - intros w Hw Hc.
    assert (Hp : has_digit_pair w = true).
    { repeat (apply elem_of_cons in Hw as [->|Hw]; [reflexivity|]).
      by apply elem_of_nil in Hw. }
    apply orb_true_iff.
    destruct Hc as [Hc|Hc]; [left|right]; by apply (has_digit_pair_contains _ w).
  - intros Ht Hd. apply orb_false_iff. split.
    + destruct (has_digit_pair (title a)) eqn:E; [|done].
      by rewrite (digit_pair_has_currency_form _ E) in Ht.
    + destruct (has_digit_pair (description a)) eqn:E; [|done].
      by rewrite (digit_pair_has_currency_form _ E) in Hd.
Qed.

Lemma has_money_needs_two_digits_witness :
  let a := {| title := "Budget grows by $1,234.56"; date := Sample.d_2024_04_10;
              description := "A story"; image_url := "" |} in
  has_digit_pair (title a) = true /\ has_money a = true.
Proof.
  intros a. split; [reflexivity|].
  apply (proj1 (has_money_needs_two_digits a)). left. reflexivity.
Defined.

(** C7.  For every title, description and non-empty phrase,
    count_of_phrase_occurrences(phrase) is the number of non-overlapping
    occurrences of the phrase in the title plus the number in the
    description, and it is not negative. *)
Theorem count_of_phrase_occurrences_additive (a : NewInformation) (phrase : string) :
  phrase <> "" ->
  exists nt nd : nat,
    occurrence_count phrase (title a) nt /\
    occurrence_count phrase (description a) nd /\
    count_of_phrase_occurrences a phrase = (Z.of_nat nt + Z.of_nat nd)%Z /\
    (0 <= count_of_phrase_occurrences a phrase)%Z.
Proof.
  intros Hne.
  destruct (count_is_occurrence_count (title a) phrase Hne) as (nt & Et & Ht).
  destruct (count_is_occurrence_count (description a) phrase Hne) as (nd & Ed & Hd).
  exists nt, nd. unfold count_of_phrase_occurrences. rewrite Et, Ed.
  repeat split; try apply Ht; try apply Hd. lia.
Qed.

Lemma count_of_phrase_occurrences_additive_witness :
  let a := {| title := "The economy and the economy"; date := Sample.d_2024_04_10;
              description := "An economy"; image_url := "" |} in
  "economy" <> "" /\
  exists nt nd : nat,
    occurrence_count "economy" (title a) nt /\
    occurrence_count "economy" (description a) nd /\
    count_of_phrase_occurrences a "economy" = (Z.of_nat nt + Z.of_nat nd)%Z /\
    (0 <= count_of_phrase_occurrences a "economy")%Z.
Proof.
  intros a. split; [discriminate|].
  apply (count_of_phrase_occurrences_additive a "economy"). discriminate.
Defined.

(** On that article the count is three: two in the title, one in the
    description. *)
Example count_of_phrase_occurrences_economy :
  count_of_phrase_occurrences
    {| title := "The economy and the economy"; date := Sample.d_2024_04_10;
       description := "An economy"; image_url := "" |} "economy" = 3%Z.
Proof. reflexivity. Qed.

(** C8 (as stated, refuted).  A payload whose "search" entry is not a
    mapping makes the constructor fail: the entry has no [get]. *)
Lemma init_fails_on_search_string :
  NewsParameters.init (JDict {[ "search" := JStr "economy" ]})
    = Raise AttributeError.
Proof. reflexivity. Qed.

(** C8 (amended).  For every payload that is a mapping whose "search"
    entry is absent, null or a mapping, constructing the parameters does
    not fail: without a search mapping the accessors give phrase "",
    months 0 and topic ""; with one, each accessor gives the value stored
    under its own key, or its default when the key is absent or null; and
    writing a key of the search mapping changes no accessor but its own. *)
Theorem news_parameters_defaults (items : gmap string json) :
  (items !! "search" = None \/ items !! "search" = Some JNull ->
   exists p, NewsParameters.init (JDict items) = Ok p /\
     NewsParameters.get_phrase p = JStr "" /\
     NewsParameters.get_months p = JNum 0 /\
     NewsParameters.get_topic p = JStr "") /\
  (forall sp, items !! "search" = Some (JDict sp) ->
   exists p, NewsParameters.init (JDict items) = Ok p /\
     NewsParameters.get_phrase p = field_or sp "phrase" (JStr "") /\
     NewsParameters.get_months p = field_or sp "months" (JNum 0) /\
     NewsParameters.get_topic p = field_or sp "topic" (JStr "")) /\
  (forall sp key v p p',
     NewsParameters.init (JDict (<["search" := JDict sp]> items)) = Ok p ->
     NewsParameters.init
       (JDict (<["search" := JDict (<[key := v]> sp)]> items)) = Ok p' ->
     (key <> "phrase" ->
      NewsParameters.get_phrase p' = NewsParameters.get_phrase p) /\
     (key <> "months" ->
      NewsParameters.get_months p' = NewsParameters.get_months p) /\
     (key <> "topic" ->
      NewsParameters.get_topic p' = NewsParameters.get_topic p)).
Proof.
  split; [|split].
  - intros H. exists NewsParameters.defaults. split; [|done].
    apply init_without_search. by destruct H as [-> | ->].
  - intros sp H. eexists. split; [by apply init_with_search|done].
  - intros sp key v p p' Hp Hp'.
    rewrite (init_with_search _ sp) in Hp by apply lookup_insert_eq.
    rewrite (init_with_search _ (<[key := v]> sp)) in Hp'
      by apply lookup_insert_eq.
    injection Hp as <-. injection Hp' as <-.
    unfold NewsParameters.get_phrase, NewsParameters.get_months,
      NewsParameters.get_topic. cbn.
    repeat split; intros Hne; by apply field_or_insert_ne.
Qed.

Lemma news_parameters_defaults_witness :
  let items : gmap string json :=
    {[ "search" := JDict {[ "months" := JNum 3 ]} ]} in
  exists p, NewsParameters.init (JDict items) = Ok p /\
    NewsParameters.get_phrase p = JStr "" /\
    NewsParameters.get_months p = JNum 3 /\
    NewsParameters.get_topic p = JStr "".
Proof.
  intros items.
  destruct (proj1 (proj2 (news_parameters_defaults items))
              {[ "months" := JNum 3 ]} eq_refl) as (p & Hp & H1 & H2 & H3).
  exists p. split; [exact Hp|]. rewrite H1, H2, H3. by vm_compute.
Defined.

(** C9 (as stated, refuted).  "1,2" has no two digits in a row, and
    has_money is true for it: the comma may stand between the two
    mandatory digits. *)
Lemma comma_between_single_digits_is_money :
  let a := {| title := "1,2"; date := Sample.d_2024_04_10;
              description := ""; image_url := "" |} in
  has_adjacent_digits (PyStr.chars (title a)) = false /\
  has_adjacent_digits (PyStr.chars (description a)) = false /\
  has_money a = true.
Proof. vm_compute. done. Qed.

(** C9 (amended).  has_money() returns true for every title or
    description containing two consecutive decimal digits (a bare year
    such as "2024" is enough), and also for one containing two digits
    separated by one comma; it returns false for texts with at most one
    digit in a row and no digit-comma-digit sequence, whether or not a
    dollar sign or the word "dollars" is present. *)
Theorem has_money_on_digit_runs (a : NewInformation) :
  (has_adjacent_digits (PyStr.chars (title a)) = true \/
   has_adjacent_digits (PyStr.chars (description a)) = true ->
   has_money a = true) /\
  (has_comma_digits (PyStr.chars (title a)) = true \/
   has_comma_digits (PyStr.chars (description a)) = true ->
   has_money a = true) /\
  (has_adjacent_digits (PyStr.chars (title a)) = false ->
   has_adjacent_digits (PyStr.chars (description a)) = false ->
   has_comma_digits (PyStr.chars (title a)) = false ->
   has_comma_digits (PyStr.chars (description a)) = false ->
   has_money a = false).
Proof.
  rewrite has_money_digit_pair. unfold has_digit_pair. split; [|split].
  - intros [-> | ->]; [done|]. rewrite !orb_true_r. done.
  - intros [-> | ->]; rewrite ?orb_true_r; done.
  - by intros -> -> -> ->.
Qed.

Lemma has_money_on_digit_runs_witness :
  let year := {| title := "Elections in 2024"; date := Sample.d_2024_04_10;
                 description := ""; image_url := "" |} in
  let five := {| title := "$5 dollars"; date := Sample.d_2024_04_10;
                 description := "a 5"; image_url := "" |} in
  has_money year = true /\ has_money five = false.
Proof.
  intros year five. split.
  - apply (proj1 (has_money_on_digit_runs year)). left. reflexivity.
  - apply (proj2 (proj2 (has_money_on_digit_runs five))); reflexivity.
Defined.

(** C10.  For every article, count_of_phrase_occurrences("") does not
    raise and is len(title) + len(description) + 2: the count of the
    empty needle in a text is its length plus one. *)
Theorem count_of_phrase_occurrences_empty (a : NewInformation) :
  count_of_phrase_occurrences a "" =
    (Z.of_nat (String.length (title a))
     + Z.of_nat (String.length (description a)) + 2)%Z.
Proof. unfold count_of_phrase_occurrences, PyStr.count. lia. Qed.

(* ================================================================== *)
(** * Further properties of the traversal *)
(* ================================================================== *)

Local Open Scope list_scope.
Section TraversalInvariants.
Import Robot.
Implicit Types (w : world) (news : list NewInformation).

Lemma bind_done_inv {A B} (m : M A) (k : A -> M B) w b w' :
  (m ≫= k) w = Done b w' ->
  exists a w1, m w = Done a w1 /\ k a w1 = Done b w'.
Proof.
  unfold mbind, M_bind, bind. destruct (m w) as [a w1|e w1|]; [|done..].
  intros H. by exists a, w1.
Qed.

Lemma find_in_result_same {A} (part : result_item -> option A) i w a w' :
  find_in_result part i w = Done a w' -> w' = w.
Proof.
  unfold find_in_result. destruct i as [|i]; [done|].
  destruct (results (shown_page w) !! i ≫= part); [|done].
  by intros [= _ <-].
Qed.

Lemma saved_files_app t1 t2 :
  saved_files (t1 ++ t2) = saved_files t1 ++ saved_files t2.
Proof. unfold saved_files. by rewrite flat_map_app. Qed.

(** Resolving a date saves nothing. *)
Lemma resolve_date_saved timestamp i w d w' :
  resolve_date timestamp i w = Done d w' ->
  saved_files (trace w') = saved_files (trace w).
Proof.
  unfold resolve_date, now, try_except, mbind, M_bind, bind, convert.
  destruct timestamp as [s|]; [|done].
  destruct (PyStr.int s) as [n|]; cbn.
  - destruct (fromtimestamp_ms w n) as [d'|e]; cbn.
    + by intros [= <- <-].
    + destruct (decide (e = ValueError)); [|done]. cbn. intros [= <- <-].
      cbn. by rewrite saved_files_app, app_nil_r.
  - intros [= <- <-]. cbn. by rewrite saved_files_app, app_nil_r.
Qed.

(** One turn of the [for] loop either returns the list as it is, or adds
    one article that is not older than the cutoff and whose picture has
    just been saved under the name kept in the article. *)
Lemma for_body_done cutoff page news i w r w' :
  for_body cutoff page news i w = Done r w' ->
  (r = Return news /\ saved_files (trace w') = saved_files (trace w)) \/
  (exists a, r = Continue (news ++ [a]) /\ dt_le cutoff (date a) /\
     saved_files (trace w') = saved_files (trace w) ++ [image_url a]).
Proof.
  unfold for_body, get_element_attribute, get_text. intros H.
  apply bind_done_inv in H as (ts & w1 & H1 & H).
  apply find_in_result_same in H1 as ->.
  apply bind_done_inv in H as (img & w1 & H1 & H).
  apply find_in_result_same in H1 as ->.
  apply bind_done_inv in H as (d & w1 & Hd & H).
  apply resolve_date_saved in Hd.
  destruct (Dt.ltb d cutoff) eqn:Hcut.
  - injection H as <- <-. by left.
  - apply bind_done_inv in H as ([] & w2 & Hu & H).
    apply bind_done_inv in H as (ttl & w3 & Ht & H).
    apply find_in_result_same in Ht as ->.
    apply bind_done_inv in H as (dsc & w3 & Hs & H).
    apply find_in_result_same in Hs as ->.
    injection H as <- <-. right. eexists. split; [done|]. split; [done|].
    unfold urlretrieve in Hu. destruct img as [u|]; [|done].
    destruct (download_fails w1 u _); [done|].
    injection Hu as <-. cbn. by rewrite saved_files_app, Hd.
Qed.

Lemma collected_refl cutoff news w w' :
  saved_files (trace w') = saved_files (trace w) ->
  collected cutoff news w news w'.
Proof.
  intros H. exists []. rewrite !app_nil_r. by repeat split.
Qed.

Lemma collected_trans cutoff news w v w' v' w'' :
  collected cutoff news w v w' -> collected cutoff v w' v' w'' ->
  collected cutoff news w v' w''.
Proof.
  intros (e1 & -> & F1 & S1) (e2 & -> & F2 & S2).
  exists (e1 ++ e2). rewrite app_assoc. split; [done|].
  split; [by apply Forall_app|].
  by rewrite S2, S1, map_app, app_assoc.
Qed.

Lemma for_results_done cutoff page l i news w r w' :
  for_results cutoff page l i news w = Done r w' ->
  collected cutoff news w (flow_news r) w'.
Proof.
  revert i news w. induction l as [|x l IH]; intros i news w H.
  - injection H as <- <-. by apply collected_refl.
  - cbn [for_results] in H.
    apply bind_done_inv in H as (r1 & w1 & H1 & H).
    apply for_body_done in H1 as [[-> S1]|(a & -> & Ha & S1)].
    + injection H as <- <-. by apply collected_refl.
    + apply IH in H.
      apply (collected_trans _ _ _ (news ++ [a]) w1); [|done].
      exists [a]. split; [done|]. split; [by constructor|done].
Qed.

(** Clicking and pausing save nothing. *)
Lemma click_attempts_saved n w w' :
  click_attempts n w = Done tt w' ->
  saved_files (trace w') = saved_files (trace w).
Proof.
  revert w. induction n as [|n IH]; intros w H.
  - by injection H as <-.
  - cbn [click_attempts] in H.
    apply bind_done_inv in H as ([] & w1 & H1 & H).
    rewrite (IH _ H).
    unfold try_except, click_link_next, sleep in H1.
    destruct (next_page (shown_page w)); [|done].
    destruct (intercepted w (clicks w)); cbn in H1; injection H1 as <-; cbn;
      [by rewrite saved_files_app, app_nil_r|done].
Qed.

Lemma while_next_done fuel cutoff l page news w v w' :
  while_next fuel cutoff l page news w = Done v w' ->
  collected cutoff news w v w'.
Proof.
  revert page news w. induction fuel as [|fuel IH]; intros page news w H; [done|].
  cbn [while_next] in H.
  apply bind_done_inv in H as (vis & w1 & Hv & H).
  injection Hv as <- <-.
  destruct (next_page (shown_page w)).
  - apply bind_done_inv in H as (r & w1 & Hr & H).
    apply for_results_done in Hr.
    destruct r as [v1|news1].
    + injection H as <- <-. done.
    + apply bind_done_inv in H as ([] & w2 & Hc & H).
      apply click_attempts_saved in Hc. apply IH in H.
      apply (collected_trans _ _ _ news1 w1); [done|].
      destruct H as (e & -> & F & S). exists e. split; [done|]. split; [done|].
      by rewrite S, Hc.
  - injection H as <- <-. by apply collected_refl.
Qed.

Lemma get_news_done fuel months w v w' :
  get_news fuel months w = Done v w' ->
  exists cutoff,
    Dt.max_date_to_search (clock w (ticks w)) months = Ok cutoff /\
    collected cutoff [] w v w'.
Proof.
  unfold get_news, find_elements, now. intros H.
  apply bind_done_inv in H as (l & w1 & H1 & H). injection H1 as <- <-.
  apply bind_done_inv in H as (t & w1 & H1 & H). injection H1 as <- <-.
  apply bind_done_inv in H as (c & w1 & H1 & H).
  destruct (Dt.max_date_to_search (clock w (ticks w)) months) as [c'|e] eqn:E;
    [|done].
  injection H1 as <- <-.
  exists c'. split; [done|]. apply while_next_done in H.
  destruct H as (e & -> & F & S). by exists e.
Qed.

End TraversalInvariants.

(** get_news(1) on the page with two recent results and an old one. *)
Lemma run_three_results :
  Robot.get_news 1 1 More.before = Robot.Done More.found More.after.
Proof. vm_compute. reflexivity. Qed.

(** X1.  Every article that get_news returns is dated at or after the
    cutoff computed from the clock reading and [months]. *)
Theorem get_news_within_window (fuel : nat) (months : Z) (w w' : Robot.world)
    (v : list NewInformation) :
  Robot.get_news fuel months w = Robot.Done v w' ->
  exists cutoff,
    Dt.max_date_to_search (Robot.clock w (Robot.ticks w)) months = Ok cutoff /\
    Forall (fun a => dt_le cutoff (date a)) v.
Proof.
  intros H. apply get_news_done in H as (c & Hc & e & -> & F & _).
  by exists c.
Qed.

Lemma get_news_within_window_witness :
  exists cutoff,
    Dt.max_date_to_search Sample.d_2024_03_15 1 = Ok cutoff /\
    Forall (fun a => dt_le cutoff (date a)) More.found.
Proof.
  exact (get_news_within_window 1 1 More.before More.after More.found
           run_three_results).
Defined.

(** X2.  When get_news returns, the files saved during the call are
    exactly the image fields of the articles returned, in order: one
    download per article, under the name the article carries. *)
Theorem get_news_saves_what_it_returns (fuel : nat) (months : Z)
    (w w' : Robot.world) (v : list NewInformation) :
  Robot.get_news fuel months w = Robot.Done v w' ->
  saved_files (Robot.trace w') =
    saved_files (Robot.trace w) ++ map image_url v.
Proof.
  intros H. apply get_news_done in H as (c & Hc & e & -> & F & S). done.
Qed.

Lemma get_news_saves_what_it_returns_witness :
  saved_files (Robot.trace More.after)
    = ["0-1712707200000-1.png"; "0-1712707200000-2.png"].
Proof.
  exact (get_news_saves_what_it_returns 1 1 More.before More.after More.found
           run_three_results).
Defined.

Section TraversalEdges.
Import Robot.
Implicit Types (w : world) (news : list NewInformation).

Lemma bind_raised {A B} (m : M A) (k : A -> M B) w e w' :
  m w = Raised e w' -> (m ≫= k) w = Raised e w'.
Proof. intros H. unfold mbind, M_bind, bind. by rewrite H. Qed.

(** A position that the page displayed does not have: the first lookup
    of the body fails. *)
Lemma for_body_beyond_page cutoff page news i w :
  results (shown_page w) !! i = None ->
  for_body cutoff page news (S i) w = Raised ElementNotFound w.
Proof.
  intros H. unfold for_body, get_element_attribute.
  apply bind_raised. unfold find_in_result. by rewrite H.
Qed.

End TraversalEdges.

(** X4.  A page without next-page link is never walked: the loop ends at
    once with the list as it is, whatever the page shows.  In particular
    get_news returns the empty list, having only read the clock, when the
    first page of results has no next-page link. *)
Theorem page_without_next_link_is_skipped
    (fuel : nat) (cutoff : Dt.datetime) (w : Robot.world) :
  Robot.next_page (Robot.shown_page w) = false ->
  (forall l page news,
     Robot.while_next (S fuel) cutoff l page news w = Robot.Done news w) /\
  (forall months,
     Dt.max_date_to_search (Robot.clock w (Robot.ticks w)) months = Ok cutoff ->
     Robot.get_news (S fuel) months w
       = Robot.Done [] (Robot.with_ticks (S (Robot.ticks w)) w)).
Proof.
  intros Hn. split.
  - intros l page news. cbn [Robot.while_next].
    rewrite (bind_done _ _ w false w)
      by (unfold Robot.is_element_visible_next; by rewrite Hn).
    done.
  - intros months Hc. unfold Robot.get_news.
    rewrite (bind_done _ _ w (Robot.results (Robot.shown_page w)) w) by done.
    rewrite (bind_done _ _ w (Robot.clock w (Robot.ticks w))
               (Robot.with_ticks (S (Robot.ticks w)) w)) by done.
    rewrite (bind_done _ _ _ cutoff (Robot.with_ticks (S (Robot.ticks w)) w))
      by (by rewrite Hc).
    cbn [Robot.while_next].
    rewrite (bind_done _ _ _ false (Robot.with_ticks (S (Robot.ticks w)) w))
      by (unfold Robot.is_element_visible_next;
          change (Robot.shown_page (Robot.with_ticks _ w)) with (Robot.shown_page w);
          by rewrite Hn).
    done.
Qed.

Lemma page_without_next_link_is_skipped_witness :
  let w := More.session More.last_page Sample.never in
  Robot.next_page (Robot.shown_page w) = false /\
  Robot.get_news 1 1 w = Robot.Done [] (Robot.with_ticks 1 w).
Proof.
  intros w. split; [reflexivity|].
  apply (proj2 (page_without_next_link_is_skipped 0 Sample.d_2024_03_01 w eq_refl)).
  vm_compute. reflexivity.
Defined.

(** X5.  When [months] reaches outside the years 1..9999, to a year that
    still fits a signed 32-bit integer, get_news raises ValueError while
    computing the cutoff, before the loop: the clock has been read once,
    nothing has been collected, saved or clicked.  ([idx] counts the
    months from year 0 to the month asked for.) *)
Theorem get_news_months_out_of_range
    (fuel : nat) (months : Z) (w : Robot.world) :
  let now := Robot.clock w (Robot.ticks w) in
  let back := (if months =? 0 then 0 else months - 1)%Z in
  let idx := (12 * Dt.year now + (Dt.month now - 1) - back)%Z in
  Dt.valid now ->
  ~ (12 <= idx < 120000)%Z ->
  (12 * -2147483648 <= idx < 12 * 2147483648)%Z ->
  Robot.get_news fuel months w
    = Robot.Raised ValueError (Robot.with_ticks (S (Robot.ticks w)) w).
Proof.
  intros now back idx Hv Hr Hc. unfold Robot.get_news.
  rewrite (bind_done _ _ w (Robot.results (Robot.shown_page w)) w) by done.
  rewrite (bind_done _ _ w now (Robot.with_ticks (S (Robot.ticks w)) w)) by done.
  apply bind_raised.
  pose proof (Z.div_mod idx 12 ltac:(lia)).
  pose proof (Z.mod_pos_bound idx 12 ltac:(lia)).
  rewrite max_date_to_search_out_of_range; [done|done| |].
  - unfold months_before, months_back. fold back. fold idx. cbn [fst]. lia.
  - unfold months_before, months_back. fold back. fold idx. cbn [fst].
    apply c_int_spec. lia.
Qed.

Lemma get_news_months_out_of_range_witness :
  let w := More.session More.last_page Sample.never in
  Robot.get_news 1 30000 w = Robot.Raised ValueError (Robot.with_ticks 1 w).
Proof.
  intros w.
  apply (get_news_months_out_of_range 1 30000 w).
  - vm_compute. intuition discriminate.
  - vm_compute. intros [H _]. by apply H.
  - vm_compute. split; [discriminate|reflexivity].
Defined.

(** X6.  When the list walked by the loop is longer than the page
    displayed, the turn of the loop raises ElementNotFound right after the
    last result of the page: the articles gathered so far are not
    returned. *)
Theorem shorter_page_raises
    (fuel : nat) (cutoff : Dt.datetime) (page : nat)
    (news news1 : list NewInformation) (w w1 : Robot.world)
    (pre post : list Robot.result_item) (x : Robot.result_item) :
  Robot.next_page (Robot.shown_page w) = true ->
  Robot.for_results cutoff page pre 1 news w
    = Robot.Done (Robot.Continue news1) w1 ->
  length (Robot.results (Robot.shown_page w1)) = length pre ->
  Robot.while_next (S fuel) cutoff (pre ++ x :: post) page news w
    = Robot.Raised ElementNotFound w1.
Proof.
  intros Hn Hpre Hlen. cbn [Robot.while_next].
  rewrite (bind_done _ _ w true w)
    by (unfold Robot.is_element_visible_next; by rewrite Hn).
  apply bind_raised.
  rewrite (for_results_app _ _ _ _ _ _ _ _ _ Hpre).
  cbn [Robot.for_results]. apply bind_raised.
  apply for_body_beyond_page. apply lookup_ge_None. lia.
Qed.

Lemma shorter_page_raises_witness :
  let site := [ {| Robot.results := [Sample.item Sample.april_10 "a"];
                   Robot.next_page := true |} ] in
  let w := More.session site Sample.always in
  let w1 := Robot.with_event
              (Robot.Saved "https://img.example/a.jpg" "1-1712707200000-1.png")
              (Robot.with_ticks 1 w) in
  Robot.while_next 1 Sample.d_2024_03_01
    [Sample.item Sample.april_10 "x"; Sample.item Sample.april_10 "y"] 1 [] w
  = Robot.Raised ElementNotFound w1.
Proof.
  intros site w w1.
  refine (shorter_page_raises 0 Sample.d_2024_03_01 1 []
            [Sample.article 1 1 Sample.april_10 "a" Sample.d_2024_04_10]
            w w1 [Sample.item Sample.april_10 "x"] []
            (Sample.item Sample.april_10 "y") _ _ _).
  all: vm_compute; reflexivity.
Defined.

Section Divergence.
Import Robot.
Implicit Types (w : world) (news : list NewInformation).

Lemma for_body_stuck cutoff page news i w :
  stuck cutoff w -> i < length (results (shown_page w)) ->
  exists news' w',
    for_body cutoff page news (S i) w = Done (Continue news') w' /\
    stuck cutoff w' /\
    length (results (shown_page w')) = length (results (shown_page w)).
Proof.
  intros (Hn & Hi & Hall) Hlt.
  destruct (lookup_lt_is_Some_2 _ _ Hlt) as [it Hit].
  pose proof (proj1 (Forall_lookup _ _) Hall _ _ Hit)
    as (s & n & d & img & ttl & dsc & Hts & Hint & Hd & Hnew & Himg & Hok & Ht & Hs).
  eexists _, _. split.
  - apply (for_body_recent cutoff page news i w it (Some s) img ttl dsc d
             (with_ticks (S (ticks w)) w)); try done.
    + by apply (resolve_date_converted s n).
    + apply Hok.
  - split; [|done]. by split.
Qed.

Lemma for_results_stuck cutoff page l j news w :
  stuck cutoff w -> j + length l <= length (results (shown_page w)) ->
  exists news' w',
    for_results cutoff page l (S j) news w = Done (Continue news') w' /\
    stuck cutoff w' /\
    length (results (shown_page w')) = length (results (shown_page w)).
Proof.
  revert j news w. induction l as [|x l IH]; intros j news w Hs Hlen.
  - by exists news, w.
  - simpl in Hlen.
    destruct (for_body_stuck cutoff page news j w Hs ltac:(lia))
      as (news1 & w1 & Hb & Hs1 & Hl1).
    destruct (IH (S j) news1 w1 Hs1 ltac:(lia)) as (news2 & w2 & Hr & Hs2 & Hl2).
    exists news2, w2. split; [|split; [done|congruence]].
    cbn [for_results]. by rewrite (bind_done _ _ _ _ _ Hb).
Qed.

Lemma click_attempts_stuck cutoff w :
  stuck cutoff w ->
  exists w',
    click_attempts 3 w = Done tt w' /\ stuck cutoff w' /\
    length (results (shown_page w')) = length (results (shown_page w)).
Proof.
  intros (Hn & Hi & Hall).
  set (w1 := with_event (Slept 1) (with_click false w)).
  set (w2 := with_event (Slept 1) (with_click false w1)).
  set (w3 := with_event (Slept 1) (with_click false w2)).
  exists w3. split; [|by split].
  cbn [click_attempts].
  rewrite (bind_done _ _ w tt w1) by (apply click_try_intercepted; [done|apply Hi]).
  rewrite (bind_done _ _ w1 tt w2) by (apply click_try_intercepted; [done|apply Hi]).
  rewrite (bind_done _ _ w2 tt w3) by (apply click_try_intercepted; [done|apply Hi]).
  reflexivity.
Qed.

Lemma while_next_stuck cutoff l fuel :
  forall page news w,
    stuck cutoff w -> length l <= length (results (shown_page w)) ->
    while_next fuel cutoff l page news w = Unfinished.
Proof.
  induction fuel as [|fuel IH]; intros page news w Hs Hlen; [done|].
  cbn [while_next].
  rewrite (bind_done _ _ w true w)
    by (unfold is_element_visible_next; by rewrite (proj1 Hs)).
  destruct (for_results_stuck cutoff page l 0 news w Hs ltac:(lia))
    as (news1 & w1 & Hr & Hs1 & Hl1).
  rewrite (bind_done _ _ _ _ _ Hr).
  destruct (click_attempts_stuck cutoff w1 Hs1) as (w2 & Hc & Hs2 & Hl2).
  rewrite (bind_done _ _ _ _ _ Hc).
  apply IH; [done|]. lia.
Qed.

End Divergence.

(** X7.  If every click on the next-page link is intercepted while the
    page displayed has the link and only results that get collected, then
    get_news does not end: it walks the same page again and again. *)
Theorem get_news_never_ends_when_clicks_are_intercepted
    (months : Z) (cutoff : Dt.datetime) (w : Robot.world) :
  Dt.max_date_to_search (Robot.clock w (Robot.ticks w)) months = Ok cutoff ->
  stuck cutoff w ->
  forall fuel, Robot.get_news fuel months w = Robot.Unfinished.
Proof.
  intros Hc Hs fuel. unfold Robot.get_news.
  rewrite (bind_done _ _ w (Robot.results (Robot.shown_page w)) w) by done.
  rewrite (bind_done _ _ w (Robot.clock w (Robot.ticks w))
             (Robot.with_ticks (S (Robot.ticks w)) w)) by done.
  rewrite (bind_done _ _ _ cutoff (Robot.with_ticks (S (Robot.ticks w)) w))
    by (by rewrite Hc).
  by apply while_next_stuck.
Qed.

Lemma get_news_never_ends_when_clicks_are_intercepted_witness :
  Robot.get_news 50 1 (More.session Sample.four_pages Sample.always)
    = Robot.Unfinished.
Proof.
  apply (get_news_never_ends_when_clicks_are_intercepted 1 Sample.d_2024_03_01).
  - vm_compute. reflexivity.
  - split; [reflexivity|]. split; [intros n; reflexivity|].
    constructor; [|constructor].
    exists Sample.april_10, 1712707200000%Z, Sample.d_2024_04_10,
      "https://img.example/a.jpg", "Title a", "About a".
    repeat split; try reflexivity.
Defined.

Section FileNames.
Implicit Types (s t : string) (l r : list ascii).

Lemma chars_app s t : PyStr.chars (s ++ t)%string = PyStr.chars s ++ PyStr.chars t.
Proof. induction s as [|c s IH]; simpl; [done|]. by rewrite <- IH. Qed.

Lemma chars_inj s t : PyStr.chars s = PyStr.chars t -> s = t.
Proof.
  intros H. apply (f_equal string_of_list_ascii) in H.
  unfold PyStr.chars in H. by rewrite !string_of_list_ascii_of_string in H.
Qed.

Lemma string_of_uint_digits (d : Decimal.uint) :
  Forall (fun c => PyStr.is_digit c = true)
    (PyStr.chars (NilEmpty.string_of_uint d)).
Proof. induction d; simpl; by constructor. Qed.

Lemma of_nat_digits n :
  Forall (fun c => PyStr.is_digit c = true) (PyStr.chars (PyStr.of_nat n)).
Proof. apply string_of_uint_digits. Qed.

Lemma of_nat_inj n m : PyStr.of_nat n = PyStr.of_nat m -> n = m.
Proof.
  unfold PyStr.of_nat. intros H.
  apply (f_equal NilEmpty.uint_of_string) in H.
  rewrite !NilEmpty.usu in H. injection H as H.
  by apply DecimalNat.Unsigned.to_uint_inj.
Qed.

(** Two texts cut at their first dash. *)
Lemma first_dash l l' r r' :
  Forall (fun c => PyStr.is_digit c = true) l ->
  Forall (fun c => PyStr.is_digit c = true) l' ->
  l ++ "-"%char :: r = l' ++ "-"%char :: r' -> l = l' /\ r = r'.
Proof.
  revert l'. induction l as [|c l IH]; intros [|c' l'] Hl Hl' E; simpl in E.
  - by injection E as ->.
  - injection E as <- _. by apply Forall_cons in Hl' as [? _].
  - injection E as -> _. by apply Forall_cons in Hl as [? _].
  - injection E as -> E.
    apply Forall_cons in Hl as [_ Hl]. apply Forall_cons in Hl' as [_ Hl'].
    destruct (IH l' Hl Hl' E) as [-> ->]. done.
Qed.

(** The file name tells the page number, the raw timestamp and the
    position apart. *)
Lemma image_filename_inj page ts i page' ts' i' :
  image_filename page ts i = image_filename page' ts' i' ->
  page = page' /\ ts = ts' /\ i = i'.
Proof.
  unfold image_filename. intros H.
  apply (f_equal PyStr.chars) in H. rewrite !chars_app in H.
  change (PyStr.chars "-") with ["-"%char] in H. simpl in H.
  apply first_dash in H as [Hp H]; [|apply of_nat_digits..].
  apply chars_inj, of_nat_inj in Hp as ->. split; [done|].
  assert (E : rev (PyStr.chars (PyStr.of_nat i)) ++ "-"%char :: rev (PyStr.chars ts)
              = rev (PyStr.chars (PyStr.of_nat i')) ++ "-"%char :: rev (PyStr.chars ts')).
  { apply (f_equal (@rev ascii)) in H.
    rewrite !rev_app_distr in H. simpl in H.
    rewrite !rev_app_distr in H. simpl in H.
    rewrite <- !app_assoc in H. simpl in H. by injection H. }
  apply first_dash in E as [Hi Ht];
    [|apply Forall_rev, of_nat_digits..].
  apply (f_equal (@rev ascii)) in Hi, Ht. rewrite !rev_involutive in Hi, Ht.
  apply chars_inj in Ht as ->. by apply chars_inj, of_nat_inj in Hi as ->.
Qed.

Import Robot.

(** The article added by a turn of the loop is named after the page
    counter, the raw timestamp and the position. *)
Lemma for_body_image_url cutoff page news i w v w' :
  for_body cutoff page news i w = Done (Continue v) w' ->
  exists a ts, v = news ++ [a] /\ image_url a = image_filename page ts i.
Proof.
  unfold for_body, get_element_attribute, get_text. intros H.
  apply bind_done_inv in H as (ts & w1 & H1 & H).
  apply bind_done_inv in H as (img & w2 & H2 & H).
  apply bind_done_inv in H as (d & w3 & Hd & H).
  destruct (Dt.ltb d cutoff); [done|].
  apply bind_done_inv in H as ([] & w4 & Hu & H).
  apply bind_done_inv in H as (ttl & w5 & Ht & H).
  apply bind_done_inv in H as (dsc & w6 & Hs & H).
  injection H as <- <-. by eexists _, (fmt_opt ts).
Qed.


(** Earlier turns have named their files after an earlier page counter,
    or after the same page counter and an earlier position. *)
Lemma named_before_later page i page' i' a :
  named_before page i a ->
  page < page' \/ (page = page' /\ i <= i') ->
  named_before page' i' a.
Proof.
  intros (p & ts & j & E & H) H'. exists p, ts, j. split; [done|]. lia.
Qed.

Lemma for_body_names cutoff page news i w (r : flow) w' :
  for_body cutoff page news i w = Done r w' ->
  Forall (named_before page i) news -> NoDup (map image_url news) ->
  Forall (named_before page (S i)) (flow_news r) /\
  NoDup (map image_url (flow_news r)).
Proof.
  intros H HF HN. destruct r as [v|v].
  - apply for_body_done in H as [[[= ->] _]|(a & [=] & _)]. split; [|done].
    eapply Forall_impl; [done|]. intros a Ha.
    apply (named_before_later page i); [done|lia].
  - apply for_body_image_url in H as (a & ts & -> & Ha). cbn [flow_news]. split.
    + apply Forall_app. split.
      * eapply Forall_impl; [done|]. intros b Hb.
        apply (named_before_later page i); [done|lia].
      * constructor; [|done]. exists page, ts, i. split; [done|]. lia.
    + rewrite map_app. apply NoDup_app. split; [done|]. split.
      * intros f Hf Hf'. apply list_elem_of_singleton in Hf'. subst f.
        apply list_elem_of_fmap in Hf as (b & Eb & Hb).
        pose proof (proj1 (Forall_forall _ _) HF b Hb) as (p & ts' & j & Hn & Hlt).
        rewrite Ha, Hn in Eb. apply image_filename_inj in Eb as (-> & _ & ->). lia.
      * apply NoDup_singleton.
Qed.

Lemma for_results_names cutoff page (l : list result_item) i news w (r : flow) w' :
  for_results cutoff page l i news w = Done r w' ->
  Forall (named_before page i) news -> NoDup (map image_url news) ->
  Forall (named_before (S page) 1) (flow_news r) /\
  NoDup (map image_url (flow_news r)).
Proof.
  revert i news w. induction l as [|x l IH]; intros i news w H HF HN.
  - injection H as <- <-. split; [|done].
    eapply Forall_impl; [done|]. intros a Ha.
    apply (named_before_later page i); [done|lia].
  - cbn [for_results] in H.
    apply bind_done_inv in H as (r1 & w1 & H1 & H).
    destruct (for_body_names _ _ _ _ _ _ _ H1 HF HN) as [HF1 HN1].
    destruct r1 as [v|v]; cbn [flow_news] in *.
    + injection H as <- <-. split; [|done].
      eapply Forall_impl; [done|]. intros a Ha.
      apply (named_before_later page (S i)); [done|lia].
    + by apply (IH (S i) v w1).
Qed.

Lemma while_next_names fuel cutoff (l : list result_item) page news w v w' :
  while_next fuel cutoff l page news w = Done v w' ->
  Forall (named_before page 1) news -> NoDup (map image_url news) ->
  NoDup (map image_url v).
Proof.
  revert page news w. induction fuel as [|fuel IH]; intros page news w H HF HN;
    [done|].
  cbn [while_next] in H.
  apply bind_done_inv in H as (vis & w1 & Hv & H). injection Hv as <- <-.
  destruct (next_page (shown_page w)).
  - apply bind_done_inv in H as (r & w1 & Hr & H).
    destruct (for_results_names _ _ _ _ _ _ _ _ Hr HF HN) as [HF1 HN1].
    destruct r as [v1|news1]; cbn [flow_news] in *.
    + by injection H as <- <-.
    + apply bind_done_inv in H as ([] & w2 & Hc & H).
      by apply (IH (S page) news1 w2).
  - by injection H as <- <-.
Qed.

End FileNames.

(** X3.  The articles that get_news returns carry pairwise distinct image
    file names: the name is built from the page counter, the raw timestamp
    and the position, and no two turns of the loops share page counter and
    position; so no download of a call overwrites another. *)
Theorem get_news_image_files_distinct (fuel : nat) (months : Z)
    (w w' : Robot.world) (v : list NewInformation) :
  Robot.get_news fuel months w = Robot.Done v w' ->
  NoDup (map image_url v).
Proof.
  unfold Robot.get_news. intros H.
  apply bind_done_inv in H as (l & w1 & _ & H).
  apply bind_done_inv in H as (t & w2 & _ & H).
  apply bind_done_inv in H as (c & w3 & _ & H).
  apply (while_next_names _ _ _ _ _ _ _ _ H); constructor.
Qed.

Lemma get_news_image_files_distinct_witness :
  NoDup ["0-1712707200000-1.png"; "0-1712707200000-2.png"].
Proof.
  exact (get_news_image_files_distinct 1 1 More.before More.after More.found
           run_three_results).
Defined.

(** With the click of the session, this is the loop of get_news. *)
Lemma click_attempts_any_next (attempts : nat) (w : Robot.world) :
  click_attempts_any Robot.click_link_next attempts w
    = Robot.click_attempts attempts w.
Proof.
  revert w. induction attempts as [|n IH]; intros w; [done|].
  cbn [click_attempts_any Robot.click_attempts].
  unfold mbind, Robot.M_bind, Robot.bind.
  destruct (Robot.try_except _ _ _ w) as [[] w1|e w1|]; [apply IH|done|done].
Qed.



Section CutoffOrder.
Local Open Scope Z_scope.

Lemma first_day_le now k k' :
  k <= k' ->
  let idx := 12 * Dt.year now + (Dt.month now - 1) - k in
  let idx' := 12 * Dt.year now + (Dt.month now - 1) - k' in
  Dt.lex_ltb
    [idx / 12; idx mod 12 + 1; 1; Dt.hour now; Dt.minute now; Dt.second now;
     Dt.microsecond now]
    [idx' / 12; idx' mod 12 + 1; 1; Dt.hour now; Dt.minute now; Dt.second now;
     Dt.microsecond now] = false.
Proof.
  intros Hk idx idx'.
  assert (Hi : idx' <= idx) by (unfold idx, idx'; lia).
  pose proof (Z.div_mod idx 12 ltac:(lia)).
  pose proof (Z.mod_pos_bound idx 12 ltac:(lia)).
  pose proof (Z.div_mod idx' 12 ltac:(lia)).
  pose proof (Z.mod_pos_bound idx' 12 ltac:(lia)).
  cbn [Dt.lex_ltb].
  destruct (Z.ltb_spec (idx / 12) (idx' / 12)); [lia|]. cbn [orb].
  destruct (Z.eqb_spec (idx / 12) (idx' / 12)) as [Ey|Ey]; [|done]. cbn [andb].
  destruct (Z.ltb_spec (idx mod 12 + 1) (idx' mod 12 + 1)); [lia|]. cbn [orb].
  destruct (Z.eqb_spec (idx mod 12 + 1) (idx' mod 12 + 1)); [|done]. cbn [andb].
  rewrite !Z.ltb_irrefl, !Z.eqb_refl. done.
Qed.

End CutoffOrder.

(** X18.  Asking for more months never narrows the window: for
    0 <= months <= months' the cutoff for months' is not later than the
    cutoff for months, for the same reading of the clock. *)
Theorem cutoff_is_monotone (now : Dt.datetime) (months months' : Z)
    (c c' : Dt.datetime) :
  Dt.valid now -> (0 <= months <= months')%Z ->
  Dt.max_date_to_search now months = Ok c ->
  Dt.max_date_to_search now months' = Ok c' ->
  dt_le c' c.
Proof.
  intros Hv Hm Hc Hc'.
  pose proof (max_date_to_search_defined now months c Hv Hc) as Hr.
  pose proof (max_date_to_search_defined now months' c' Hv Hc') as Hr'.
  rewrite max_date_to_search_value in Hc by done.
  rewrite max_date_to_search_value in Hc' by done.
  injection Hc as <-. injection Hc' as <-.
  assert (Hk : (months_back months <= months_back months')%Z).
  { unfold months_back.
    destruct (Z.eqb_spec months 0), (Z.eqb_spec months' 0); lia. }
  exact (first_day_le now _ _ Hk).
Qed.

Lemma cutoff_is_monotone_witness :
  dt_le (Dt.mk 2023 12 1 9 30 0 0) (Dt.mk 2024 3 1 9 30 0 0).
Proof.
  apply (cutoff_is_monotone (Dt.mk 2024 5 15 9 30 0 0) 3 6).
  - vm_compute. intuition discriminate.
  - lia.
  - reflexivity.
  - reflexivity.
Defined.



(* ================================================================== *)
(** * Further properties of the data classes *)
(* ================================================================== *)

Section CountEdges.
Implicit Types (sub s : list ascii).

(** One copy fits exactly when the text contains the needle. *)
Lemma disjoint_occurrences_one sub s :
  disjoint_occurrences sub s 1 <-> exists pre post, s = pre ++ sub ++ post.
Proof.
  split.
  - intros H. inversion H; subst. by eexists _, _.
  - intros (pre & post & ->). apply occ_more. constructor.
Qed.

Lemma occurrence_count_zero (sub s : string) n :
  occurrence_count sub s n -> (n = 0 <-> ~ contains s sub).
Proof.
  intros [Hn Hmax]. unfold contains. rewrite <- disjoint_occurrences_one. split.
  - intros -> H1. apply Hmax in H1. lia.
  - intros H1. destruct n as [|n]; [done|]. exfalso. apply H1.
    inversion Hn; subst. apply occ_more. constructor.
Qed.

End CountEdges.

(** X8.  For a non-empty phrase the count is zero exactly when the phrase
    occurs neither in the title nor in the description. *)
Theorem count_of_phrase_occurrences_zero (a : NewInformation) (phrase : string) :
  phrase <> "" ->
  (count_of_phrase_occurrences a phrase = 0%Z <->
   ~ contains (title a) phrase /\ ~ contains (description a) phrase).
Proof.
  intros Hne. unfold count_of_phrase_occurrences.
  destruct (count_is_occurrence_count (title a) phrase Hne) as (nt & -> & Ht).
  destruct (count_is_occurrence_count (description a) phrase Hne) as (nd & -> & Hd).
  rewrite <- (occurrence_count_zero _ _ _ Ht), <- (occurrence_count_zero _ _ _ Hd).
  lia.
Qed.

Lemma count_of_phrase_occurrences_zero_witness :
  "inflation" <> "" /\
  (count_of_phrase_occurrences More.money_article "inflation" = 0%Z <->
   ~ contains (title More.money_article) "inflation" /\
   ~ contains (description More.money_article) "inflation").
Proof.
  split; [discriminate|].
  apply (count_of_phrase_occurrences_zero More.money_article "inflation").
  discriminate.
Defined.

(** X9.  For a non-empty phrase the occurrences counted fit in the two
    texts: the count times the length of the phrase is at most the length
    of the title plus the length of the description. *)
Theorem count_of_phrase_occurrences_bound (a : NewInformation) (phrase : string) :
  phrase <> "" ->
  (count_of_phrase_occurrences a phrase * Z.of_nat (String.length phrase)
   <= Z.of_nat (String.length (title a) + String.length (description a)))%Z.
Proof.
  intros Hne. unfold count_of_phrase_occurrences.
  destruct (count_is_occurrence_count (title a) phrase Hne) as (nt & -> & Ht & _).
  destruct (count_is_occurrence_count (description a) phrase Hne) as (nd & -> & Hd & _).
  apply disjoint_occurrences_length in Ht, Hd.
  rewrite !chars_length in Ht, Hd. nia.
Qed.

Lemma count_of_phrase_occurrences_bound_witness :
  "economy" <> "" /\
  (count_of_phrase_occurrences More.plain_article "economy"
     * Z.of_nat (String.length "economy")
   <= Z.of_nat (String.length (title More.plain_article)
                + String.length (description More.plain_article)))%Z.
Proof.
  split; [discriminate|].
  apply (count_of_phrase_occurrences_bound More.plain_article "economy").
  discriminate.
Defined.

(** X10.  Constructing the parameters succeeds exactly for the payloads
    that are mappings whose "search" entry is absent, null or a mapping;
    for every other payload it raises AttributeError, and no other
    exception is ever raised. *)
Theorem news_parameters_init_succeeds_iff (payload : json) :
  ((exists p, NewsParameters.init payload = Ok p) <->
   exists items, payload = JDict items /\
     (items !! "search" = None \/ items !! "search" = Some JNull \/
      exists sp, items !! "search" = Some (JDict sp))) /\
  (forall e, NewsParameters.init payload = Raise e -> e = AttributeError).
Proof.
  split.
  - split.
    + intros [p Hp]. destruct payload as [| | | | |items]; try done.
      exists items. split; [done|].
      unfold NewsParameters.init in Hp. cbn in Hp.
      destruct (items !! "search") as [[| | | | |sp]|]; cbn in Hp; try done;
        eauto.
    + intros (items & -> & [H|[H|[sp H]]]).
      * exists NewsParameters.defaults. apply init_without_search. by rewrite H.
      * exists NewsParameters.defaults. apply init_without_search. by rewrite H.
      * eexists. by apply init_with_search.
  - intros e. destruct payload as [| | | | |items]; cbn; try by intros [= <-].
    unfold NewsParameters.init. cbn.
    destruct (items !! "search") as [[| | | | |sp]|]; cbn; try done;
      by intros [= <-].
Qed.

Lemma news_parameters_init_succeeds_iff_witness :
  (exists p, NewsParameters.init (JDict {["search" := JNull]}) = Ok p) /\
  forall e, NewsParameters.init (JDict {["search" := JStr "economy"]}) = Raise e ->
            e = AttributeError.
Proof.
  split.
  - apply (proj2 (proj1
      (news_parameters_init_succeeds_iff (JDict {["search" := JNull]})))).
    exists {["search" := JNull]}. split; [reflexivity|].
    right. left. apply lookup_singleton_eq.
  - exact (proj2
      (news_parameters_init_succeeds_iff (JDict {["search" := JStr "economy"]}))).
Defined.

(* ================================================================== *)
(** * The filter panel, the report and the orchestrator *)
(* ================================================================== *)

Section StripFacts.
Implicit Types (l : list ascii).

Lemma lstrip_ws_head l :
  match lstrip_ws l with
  | c :: _ => is_whitespace c = false
  | [] => True
  end.
Proof.
  induction l as [|c l IH]; simpl; [done|].
  destruct (is_whitespace c) eqn:E; [done|]. done.
Qed.

Lemma lstrip_ws_fixed l :
  match l with
  | c :: _ => is_whitespace c = false
  | [] => True
  end -> lstrip_ws l = l.
Proof. destruct l as [|c l]; simpl; [done|]. by intros ->. Qed.

(** Stripping on the right does not uncover white space on the left. *)
Lemma rstrip_ws_head l :
  match l with
  | c :: _ => is_whitespace c = false
  | [] => True
  end ->
  match rev (lstrip_ws (rev l)) with
  | c :: _ => is_whitespace c = false
  | [] => True
  end.
Proof.
  destruct l as [|c l]; [done|]. intros Hc.
  assert (H : exists m, lstrip_ws (rev (c :: l)) = m ++ [c]).
  { simpl. generalize (rev l). intros r.
    induction r as [|x r IH]; simpl.
    - rewrite Hc. by exists [].
    - destruct (is_whitespace x); [done|]. by exists (x :: r). }
  destruct H as [m ->]. rewrite rev_app_distr. done.
Qed.

Lemma strip_ws_idempotent l : strip_ws (strip_ws l) = strip_ws l.
Proof.
  unfold strip_ws.
  rewrite (lstrip_ws_fixed (rev (lstrip_ws (rev (lstrip_ws l)))))
    by apply rstrip_ws_head, lstrip_ws_head.
  rewrite rev_involutive.
  rewrite (lstrip_ws_fixed (lstrip_ws (rev (lstrip_ws l))))
    by apply lstrip_ws_head.
  done.
Qed.

Lemma str_strip_idempotent (s : string) : str_strip (str_strip s) = str_strip s.
Proof.
  unfold str_strip, PyStr.chars.
  by rewrite list_ascii_of_string_of_list_ascii, strip_ws_idempotent.
Qed.

End StripFacts.

(** X11.  order_and_select_category uses its topic only after stripping the
    white space around it: a topic and the same topic with blanks, tabs
    or line ends around it make the session behave the same. *)
Theorem topic_is_stripped (t : string) (s : Panel.session) :
  Panel.order_and_select_category (JStr (str_strip t)) s
    = Panel.order_and_select_category (JStr t) s.
Proof.
  unfold Panel.order_and_select_category, Panel.strip.
  by rewrite str_strip_idempotent.
Qed.

Section PanelFacts.
Import Eff Panel.
Implicit Types (s : session).

Lemma eff_bind_done {S A B} (m : M S A) (k : A -> M S B) (s : S) a (s' : S) :
  m s = Done a s' -> (m ≫= k) s = k a s'.
Proof. intros H. unfold mbind, M_bind, bind. by rewrite H. Qed.

Lemma eff_bind_raised {S A B} (m : M S A) (k : A -> M S B) (s : S) e (s' : S) :
  m s = Raised e s' -> (m ≫= k) s = Raised e s'.
Proof. intros H. unfold mbind, M_bind, bind. by rewrite H. Qed.

Lemma run_done k s :
  breaks s (called s) k = None -> run k s = Done tt (with_called k s).
Proof. intros H. unfold run. by rewrite H. Qed.

Lemma run_raised k s e :
  breaks s (called s) k = Some e -> run k s = Raised e (with_called k s).
Proof. intros H. unfold run. by rewrite H. Qed.

End PanelFacts.

(** X12.  order_and_select_category ticks a checkbox only when the locator
    template itself, with its field still unfilled, is visible: the wait
    and the visibility test are made on the template, and only the call
    that ticks uses the locator of the topic.  Whatever the browser does,
    a checkbox ticked during the call is that of the stripped topic, and
    the template was visible at the time. *)
Theorem checkbox_needs_visible_template
    (topic : json) (s s' : Panel.session) (loc : string) :
  ended (Panel.order_and_select_category topic s) = Some s' ->
  Panel.select_checkbox loc ∈ Panel.called s' ->
  Panel.select_checkbox loc ∉ Panel.called s ->
  exists t h,
    topic = JStr t /\ loc = Panel.checkbox_locator (str_strip t) /\
    Panel.visible s h Panel.checkbox_template = true.
Proof.
  unfold Panel.order_and_select_category, Panel.when_visible, Panel.strip,
    Panel.run, Panel.is_element_visible, Panel.logging_error,
    Eff.try_except, mbind, Eff.M_bind, Eff.bind, mret, Eff.ret, Eff.raise.
  intros H Hin Hnot.
  repeat (case_match; simplify_eq/=; try done);
    repeat (apply elem_of_app in Hin as [Hin|Hin];
            [|apply list_elem_of_singleton in Hin; simplify_eq/=]);
    try done;
    eauto 10.
Qed.

Lemma checkbox_needs_visible_template_witness :
  let s' := {| Panel.called :=
                 [Panel.wait_until_page_contains_element "name:s";
                  Panel.select_from_list_by_label "name:s" "Newest";
                  Panel.click_button Panel.filters_open_button;
                  Panel.wait_until_element_is_visible Panel.checkbox_template;
                  Panel.select_checkbox (Panel.checkbox_locator "Business");
                  Panel.click_button_when_visible Panel.filters_open_button];
               Panel.visible := fun _ _ => true;
               Panel.breaks := fun _ _ => None;
               Panel.log := [] |} in
  ended (Panel.order_and_select_category (JStr " Business ") More.obliging)
    = Some s' /\
  exists t h,
    JStr " Business " = JStr t /\
    Panel.checkbox_locator "Business" = Panel.checkbox_locator (str_strip t) /\
    Panel.visible More.obliging h Panel.checkbox_template = true.
Proof.
  intros s'. split; [reflexivity|].
  apply (checkbox_needs_visible_template (JStr " Business ") More.obliging s'
           (Panel.checkbox_locator "Business")).
  - reflexivity.
  - apply list_elem_of_In. vm_compute. tauto.
  - apply not_elem_of_nil.
Defined.

(** X13.  When the wait for the locator template times out, as it does on
    a page where no label reads "{0}", order_and_select_category does not
    raise for any non-blank topic: after sorting by newest and opening the
    filter panel if its button is visible, it logs that the topic section
    was not found and returns; no checkbox is ticked and the panel is not
    closed again. *)
Theorem filter_not_applied_when_template_wait_times_out
    (t : string) (s : Panel.session) :
  let k1 := Panel.wait_until_page_contains_element "name:s" in
  let k2 := Panel.select_from_list_by_label "name:s" "Newest" in
  let h2 := Panel.called s ++ [k1; k2] in
  let opening :=
    if Panel.visible s h2 Panel.filters_open_button
    then [Panel.click_button Panel.filters_open_button] else [] in
  let wait := Panel.wait_until_element_is_visible Panel.checkbox_template in
  str_strip t <> "" ->
  Panel.breaks s (Panel.called s) k1 = None ->
  Panel.breaks s (Panel.called s ++ [k1]) k2 = None ->
  (Panel.visible s h2 Panel.filters_open_button = true ->
   Panel.breaks s h2 (Panel.click_button Panel.filters_open_button) = None) ->
  Panel.breaks s (h2 ++ opening) wait = Some AssertionError ->
  Panel.order_and_select_category (JStr t) s =
    Eff.Done tt
      {| Panel.called := h2 ++ opening ++ [wait];
         Panel.visible := Panel.visible s;
         Panel.breaks := Panel.breaks s;
         Panel.log := Panel.log s
                        ++ [("Unable to find topic section: " ++ str_strip t)%string] |}.
Proof.
  intros k1 k2 h2 opening wait Hne H1 H2 Hopen Hwait.
  unfold Panel.order_and_select_category.
  rewrite (eff_bind_done _ _ s tt (Panel.with_called k1 s)) by by apply run_done.
  set (s1 := Panel.with_called k1 s).
  rewrite (eff_bind_done _ _ s1 tt (Panel.with_called k2 s1)) by by apply run_done.
  set (s2 := Panel.with_called k2 s1).
  assert (Hh2 : Panel.called s2 = h2) by (cbn; by rewrite <- app_assoc).
  rewrite (eff_bind_done _ _ s2 (str_strip t) s2) by done.
  destruct (decide (str_strip t = "")) as [|_]; [done|].
  set (s3 := {| Panel.called := h2 ++ opening; Panel.visible := Panel.visible s;
                Panel.breaks := Panel.breaks s; Panel.log := Panel.log s |}).
  rewrite (eff_bind_done _ _ s2 tt s3).
  2:{ unfold Panel.when_visible, Panel.is_element_visible, mbind, Eff.M_bind,
        Eff.bind, s3, opening. rewrite Hh2.
      change (Panel.visible s2) with (Panel.visible s).
      destruct (Panel.visible s h2 Panel.filters_open_button) eqn:Ev.
      - rewrite run_done by (rewrite Hh2; by apply Hopen).
        unfold Panel.with_called. by rewrite Hh2.
      - unfold mret, Eff.M_ret, Eff.ret. f_equal.
        unfold s2, s1, Panel.with_called. cbn. f_equal.
        rewrite app_nil_r, <- app_assoc. done. }
  unfold Eff.try_except.
  rewrite (eff_bind_raised _ _ s3 AssertionError (Panel.with_called wait s3))
    by by apply run_raised.
  destruct (decide (AssertionError = AssertionError)) as [_|]; [|done].
  unfold Panel.logging_error, Panel.with_log, Panel.with_called. cbn.
  by rewrite <- app_assoc.
Qed.

Lemma filter_not_applied_when_template_wait_times_out_witness :
  Panel.log <$> ended (Panel.order_and_select_category (JStr "Business")
                         More.no_checkbox)
    = Some ["Unable to find topic section: Business"] /\
  Panel.called <$> ended (Panel.order_and_select_category (JStr "Business")
                            More.no_checkbox)
    = Some [Panel.wait_until_page_contains_element "name:s";
            Panel.select_from_list_by_label "name:s" "Newest";
            Panel.click_button Panel.filters_open_button;
            Panel.wait_until_element_is_visible Panel.checkbox_template].
Proof.
  rewrite (filter_not_applied_when_template_wait_times_out "Business"
             More.no_checkbox); [by split|discriminate|reflexivity..].
Defined.

Section ReportFacts.
Import Eff SearchContext.

(** With a phrase that is a text the loop fills every column with one
    entry per article, in order. *)
Lemma fill_str results p d :
  fill results (JStr p) d =
    Ok {| Title := Title d ++ map title results;
          Description := Description d ++ map description results;
          Date := Date d ++ map date results;
          HasMoney := HasMoney d ++ map has_money results;
          PhraseOccurrences :=
            PhraseOccurrences d
              ++ map (fun r => count_of_phrase_occurrences r p) results |}.
Proof.
  revert d. induction results as [|r results IH]; intros d.
  - cbn. rewrite !app_nil_r. by destruct d.
  - cbn [fill]. cbn. rewrite IH. cbn. by rewrite <- !app_assoc.
Qed.

Lemma fill_not_str results phrase d :
  (forall p, phrase <> JStr p) -> results <> [] ->
  fill results phrase d = Raise TypeError.
Proof.
  intros Hp Hr. destruct results as [|r results]; [done|].
  cbn [fill]. destruct phrase; try done. by destruct (Hp s).
Qed.

End ReportFacts.

(** X14.  When the four steps of the news source complete one after the
    other and the phrase is a text, search completes in the state the
    source left, and the table of the report has one row per article
    returned by get_news, in the same order: title, description, date,
    the money flag and the count of the phrase of that article. *)
Theorem search_reports_every_article {S : Type}
    (logic : SearchContext.BaseNewsLogic S) (parameters : NewsParameters.t)
    (p : string) (s s1 s2 s3 s4 : S) (v : list NewInformation) :
  NewsParameters.get_phrase parameters = JStr p ->
  SearchContext.open_site logic s = Eff.Done tt s1 ->
  SearchContext.enter_phrase logic (JStr p) s1 = Eff.Done tt s2 ->
  SearchContext.order_and_select_category logic
    (NewsParameters.get_topic parameters) s2 = Eff.Done tt s3 ->
  SearchContext.get_news logic (NewsParameters.get_months parameters) s3
    = Eff.Done v s4 ->
  SearchContext.search logic parameters s =
    Eff.Done
      {| SearchContext.Title := map title v;
         SearchContext.Description := map description v;
         SearchContext.Date := map date v;
         SearchContext.HasMoney := map has_money v;
         SearchContext.PhraseOccurrences :=
           map (fun r => count_of_phrase_occurrences r p) v |} s4.
Proof.
  intros Hp H1 H2 H3 H4. unfold SearchContext.search.
  rewrite (eff_bind_done _ _ _ _ _ H1). rewrite Hp.
  rewrite (eff_bind_done _ _ _ _ _ H2).
  rewrite (eff_bind_done _ _ _ _ _ H3).
  rewrite (eff_bind_done _ _ _ _ _ H4).
  unfold SearchContext.generate_report. by rewrite Hp, fill_str.
Qed.

Lemma search_reports_every_article_witness :
  exists s4,
    SearchContext.search More.two_articles More.economy More.quiet =
      Eff.Done
        {| SearchContext.Title := ["The economy recovers"; "Weather"];
           SearchContext.Description :=
             ["A fund of $50 million"; "Rain is good for the economy"];
           SearchContext.Date := [Sample.d_2024_04_10; Sample.d_2024_04_10];
           SearchContext.HasMoney := [true; false];
           SearchContext.PhraseOccurrences := [1%Z; 1%Z] |} s4.
Proof.
  eexists.
  refine (search_reports_every_article More.two_articles More.economy "economy"
            More.quiet _ _ _ _ [More.money_article; More.plain_article]
            eq_refl _ _ _ _); reflexivity.
Defined.

(** X15.  The count of the phrase is asked of every article, so a phrase
    that is not a text (a number, a list, a mapping in the payload) makes
    the report fail with TypeError as soon as there is one article; with
    no article at all the empty table is produced whatever the phrase. *)
Theorem report_needs_a_text_phrase
    (results : list NewInformation) (parameters : NewsParameters.t) :
  (forall p, NewsParameters.get_phrase parameters <> JStr p) ->
  (results = [] ->
   SearchContext.generate_report results parameters
     = Ok SearchContext.empty_dict) /\
  (results <> [] ->
   SearchContext.generate_report results parameters = Raise TypeError).
Proof.
  intros Hp. split.
  - by intros ->.
  - intros Hr. by apply fill_not_str.
Qed.

Lemma report_needs_a_text_phrase_witness :
  let parameters := {| NewsParameters.phrase := JNum 7;
                       NewsParameters.months := JNum 1;
                       NewsParameters.topic := JStr "" |} in
  SearchContext.generate_report [] parameters = Ok SearchContext.empty_dict /\
  SearchContext.generate_report [More.money_article] parameters
    = Raise TypeError.
Proof.
  intros parameters.
  destruct (report_needs_a_text_phrase [More.money_article] parameters
              ltac:(discriminate)) as [_ H2].
  destruct (report_needs_a_text_phrase [] parameters ltac:(discriminate))
    as [H1 _].
  split; [by apply H1|by apply H2].
Defined.

(** X16.  search passes the [months] of the payload to get_news as it is.
    A number is used as such.  Null, a truth value, an empty text, an
    empty list and an empty mapping are taken as no month back, which is
    the cutoff of [months = 0].  A text, a list or a mapping that is not
    empty makes get_news raise TypeError right after it has read the
    clock, before the loop. *)
Theorem get_news_months_of_any_type (fuel : nat) (w : Robot.world) :
  (forall n, get_news_json fuel (JNum n) w = Robot.get_news fuel n w) /\
  (get_news_json fuel JNull w = Robot.get_news fuel 0 w /\
   (forall b, get_news_json fuel (JBool b) w = Robot.get_news fuel 0 w) /\
   get_news_json fuel (JStr "") w = Robot.get_news fuel 0 w /\
   get_news_json fuel (JList []) w = Robot.get_news fuel 0 w /\
   get_news_json fuel (JDict ∅) w = Robot.get_news fuel 0 w) /\
  (forall months,
     (exists s, months = JStr s /\ s <> "") \/
     (exists l, months = JList l /\ l <> []) \/
     (exists d, months = JDict d /\ d <> ∅) ->
     get_news_json fuel months w
       = Robot.Raised TypeError (Robot.with_ticks (S (Robot.ticks w)) w)).
Proof.
  split; [done|]. split; [by repeat split|].
  intros months H.
  assert (Hd : months_delta months = Raise TypeError).
  { destruct H as [(s & -> & Hs)|[(l & -> & Hl)|(d & -> & Hd)]]; cbn.
    - by destruct (decide (s = "")).
    - destruct (decide (length l = 0)) as [Hl'|]; [|done].
      by apply nil_length_inv in Hl'.
    - destruct (decide (size d = 0)) as [Hd'|]; [|done].
      by apply map_size_empty_inv in Hd'. }
  unfold get_news_json. by rewrite Hd.
Qed.

Lemma get_news_months_of_any_type_witness :
  let w := More.before in
  get_news_json 1 (JStr "3") w
    = Robot.Raised TypeError (Robot.with_ticks 1 w).
Proof.
  intros w.
  apply (proj2 (proj2 (get_news_months_of_any_type 1 w))).
  left. exists "3". split; [reflexivity|discriminate].
Defined.
